(** * Project Hub: the reconciliation of auto-discovered repositories with
      the hand-written configuration

    A shallow embedding of [js/config.js] (the configuration loader and its
    accessors) and of [js/api.js] (the merge of GitHub repositories with the
    configuration, and the manual-only fallback), followed by the properties
    of the specification that concern them.

    Conventions of the embedding.
    - A field of a YAML project entry is [undefined] (key absent), [null] or a
      string: [jsval].  [||], [!==] and template literals are written out on
      that type ([js_or], [strict_eq], [toStr]).  The fields are text in the
      data model of the specification; numbers and booleans, which YAML
      also has, are not modelled, and a property that needs a value to be
      a string says so.
    - The module-level [let config] of [Config] is passed explicitly
      ([Config.state]); [load] returns the new state next to its result.
    - A JavaScript exception is the [Throw] case of [result]; [try]/[catch]
      is a match on it.
    - [fetch], [jsyaml.load] and [String.prototype.localeCompare] are
      services of the host: the first is a field of [World], the other two
      are parameters of the definitions that call them. *)

From Stdlib Require Import ZArith List String Ascii Bool Lia.
From Stdlib Require Import Permutation Sorted DecimalString.
Import ListNotations.

Open Scope string_scope.
Open Scope Z_scope.
Open Scope list_scope.

(* ------------------------------------------------------------------ *)
(** ** JavaScript values and exceptions *)

Module JS.

Inductive jsval : Type :=
| JUndefined
| JNull
| JStr (s : string).

(** ToBoolean: [undefined], [null] and the empty string are falsy. *)
Definition truthy (v : jsval) : bool :=
  match v with
  | JStr s => negb (s =? "")%string
  | _ => false
  end.

(** [a || b] *)
Definition js_or (a b : jsval) : jsval := if truthy a then a else b.

(** [a === b] *)
Definition strict_eq (a b : jsval) : bool :=
  match a, b with
  | JUndefined, JUndefined => true
  | JNull, JNull => true
  | JStr s, JStr t => (s =? t)%string
  | _, _ => false
  end.

(** ToString, as a template literal applies it. *)
Definition toStr (v : jsval) : string :=
  match v with
  | JUndefined => "undefined"
  | JNull => "null"
  | JStr s => s
  end.

(** [xs.includes(v)] *)
Definition includes (xs : list jsval) (v : jsval) : bool :=
  existsb (fun x => strict_eq x v) xs.

(** [xs.indexOf(v)]: the first index holding [v], or [-1]. *)
Fixpoint indexOf (xs : list jsval) (v : jsval) : Z :=
  match xs with
  | [] => -1
  | x :: xs' =>
      if strict_eq x v then 0
      else let i := indexOf xs' v in if i =? -1 then -1 else i + 1
  end.

Inductive exn : Type :=
| Error (message : string)
| TypeError (message : string)
| YAMLException (message : string).

Inductive result (A : Type) : Type :=
| Ok (a : A)
| Throw (e : exn).
Arguments Ok {A} a.
Arguments Throw {A} e.

Definition bind {A B : Type} (m : result A) (k : A -> result B) : result B :=
  match m with
  | Ok a => k a
  | Throw e => Throw e
  end.

Fixpoint mapM {A B : Type} (f : A -> result B) (l : list A) : result (list B) :=
  match l with
  | [] => Ok []
  | x :: l' =>
      bind (f x) (fun y => bind (mapM f l') (fun ys => Ok (y :: ys)))
  end.

(** [`${n}`] for an integer. *)
Definition ofZ (n : Z) : string := NilZero.string_of_int (Z.to_int n).

End JS.
Import JS.

Declare Scope js_scope.
Delimit Scope js_scope with js.
Notation "a ||| b" := (js_or a b) (at level 50, left associativity) : js_scope.
Notation "x <- m ;; k" := (bind m (fun x => k))
  (at level 61, m at next level, right associativity) : js_scope.
Open Scope js_scope.

(* ------------------------------------------------------------------ *)
(** ** [Array.prototype.sort]

    The engine's algorithm is not fixed by the language; what is fixed
    (ECMAScript 2019 on) is that the sort is stable and that, for a
    consistent comparator, the result is ordered by it.  The model is the
    stable insertion sort: [x] is placed in front of the first [y] with
    [cmp x y <= 0].  A comparator that throws aborts the sort. *)

Section ArraySort.
Context {A : Type}.
Variable cmp : A -> A -> result Z.

Fixpoint insertSorted (x : A) (l : list A) : result (list A) :=
  match l with
  | [] => Ok [x]
  | y :: l' =>
      c <- cmp x y ;;
      if c <=? 0 then Ok (x :: y :: l')
      else (r <- insertSorted x l' ;; Ok (y :: r))
  end.

Fixpoint sort (l : list A) : result (list A) :=
  match l with
  | [] => Ok []
  | x :: l' => s <- sort l' ;; insertSorted x s
  end.
End ArraySort.

(* ------------------------------------------------------------------ *)
(** ** The data: repositories, configuration entries, projects *)

(** A repository object of the GitHub API, with the fields the code reads. *)
Module Repo.
Record t : Type := mk {
  name : string;
  description : jsval;
  html_url : string;
  has_pages : bool
}.
End Repo.

(** An entry under [projects:] in [projects.yaml]; also the shape
    [normalizeProject] returns. *)
Module Entry.
Record t : Type := mk {
  repo : jsval;
  name : jsval;
  description : jsval;
  url : jsval;
  repoUrl : jsval;
  thumbnail : jsval;
  order : jsval
}.
End Entry.

(** The project objects handed to the renderer. *)
Module Project.
Record t : Type := mk {
  name : jsval;
  description : jsval;
  url : jsval;
  repoUrl : jsval;
  thumbnail : jsval;
  isAutoDiscovered : bool
}.
End Project.

(** The user profile of the page header. *)
Module Profile.
Record t : Type := mk {
  username : jsval;
  avatarUrl : jsval;
  profileUrl : jsval
}.
End Profile.

(** What [jsyaml.load] returns for [projects.yaml]. *)
Module Yaml.
(** The value under [projects:]: absent or falsy, a sequence whose items
    are mappings or [null], or some other truthy value. *)
Inductive projectsField : Type :=
| Absent
| Items (items : list (option Entry.t))
| NotASequence.

Record mapping : Type := mk {
  username : jsval;
  exclude : option (list jsval);
  order : option (list jsval);
  projects : projectsField
}.

(** A falsy document (empty file, [null]) or a mapping; a truthy scalar
    reads like a mapping without keys. *)
Inductive doc : Type :=
| Falsy
| Mapping (m : mapping).

Definition empty : mapping := mk JUndefined None None Absent.
End Yaml.

(** The network as the page sees it. *)
Module Net.
Inductive json : Type :=
| Repos (repos : list Repo.t)
| User (login avatar_url html_url : jsval).

Record response : Type := mkResponse {
  ok : bool;
  status : Z;
  text : result string;
  json_body : result json
}.

Record World : Type := mkWorld {
  fetch : string -> result response
}.
End Net.

(* ------------------------------------------------------------------ *)
(** ** [js/config.js] *)

Module Config.

Record Configuration : Type := mkConfiguration {
  username : jsval;
  exclude : list jsval;
  order : list jsval;
  projects : list Entry.t
}.

(** The module-level [let config = null]. *)
Definition state : Type := option Configuration.

(** [normalizeProject(project)]; reading a property of [null] throws. *)
Definition normalizeProject (project : option Entry.t) : result Entry.t :=
  match project with
  | None => Throw (TypeError "Cannot read properties of null")
  | Some project =>
      Ok {| Entry.repo := Entry.repo project ||| JNull;
            Entry.name := Entry.name project ||| Entry.repo project ||| JStr "Untitled";
            Entry.description := Entry.description project ||| JNull;
            Entry.url := Entry.url project ||| JNull;
            Entry.repoUrl :=
              if negb (strict_eq (Entry.repoUrl project) JUndefined)
              then Entry.repoUrl project else JNull;
            Entry.thumbnail := Entry.thumbnail project ||| JNull;
            Entry.order := Entry.order project ||| JNull |}
  end.

(** The configuration of the [catch] branch of [load]. *)
Definition defaults : Configuration :=
  {| username := JStr "darrenmcewan"; exclude := []; order := []; projects := [] |}.

Section Load.
(** [jsyaml.load], which throws on text that is not YAML. *)
Variable jsyaml_load : string -> result Yaml.doc.

(** The body of the [try] block of [load]. *)
Definition tryLoad (w : Net.World) : result Configuration :=
  response <- Net.fetch w "projects.yaml" ;;
  if negb (Net.ok response)
  then Throw (Error ("Failed to load config: " ++ ofZ (Net.status response)))
  else
    yamlText <- Net.text response ;;
    parsed <- jsyaml_load yamlText ;;
    let config := match parsed with
                  | Yaml.Falsy => Yaml.empty
                  | Yaml.Mapping m => m
                  end in
    normalized <-
      match Yaml.projects config with
      | Yaml.Absent => Ok []
      | Yaml.Items items => mapM normalizeProject items
      | Yaml.NotASequence => Throw (TypeError "config.projects.map is not a function")
      end ;;
    Ok {| username := Yaml.username config ||| JStr "";
          exclude := match Yaml.exclude config with Some l => l | None => [] end;
          order := match Yaml.order config with Some l => l | None => [] end;
          projects := normalized |}.

(** [load()]: the value it resolves to and the new module state. *)
Definition load (config : state) (w : Net.World) : Configuration * state :=
  match config with
  | Some c => (c, Some c)
  | None =>
      match tryLoad w with
      | Ok c => (c, Some c)
      | Throw _ => (defaults, Some defaults)
      end
  end.
End Load.

(** [config?.username || 'darrenmcewan'] *)
Definition getUsername (config : state) : jsval :=
  match config with
  | Some c => username c ||| JStr "darrenmcewan"
  | None => JStr "darrenmcewan"
  end.

Definition getExcluded (config : state) : list jsval :=
  match config with Some c => exclude c | None => [] end.

Definition getOrder (config : state) : list jsval :=
  match config with Some c => order c | None => [] end.

Definition getProjects (config : state) : list Entry.t :=
  match config with Some c => projects c | None => [] end.

(** [projects.find(p => p.repo === repoName) || null] *)
Definition getProjectOverride (config : state) (repoName : string) : option Entry.t :=
  find (fun p => strict_eq (Entry.repo p) (JStr repoName)) (getProjects config).

Definition getManualProjects (config : state) : list Entry.t :=
  filter (fun p => truthy (Entry.url p)) (getProjects config).

Definition getReposWithCustomUrls (config : state) : list jsval :=
  map Entry.repo
    (filter (fun p => truthy (Entry.url p) && truthy (Entry.repo p)) (getProjects config)).

End Config.

(* ------------------------------------------------------------------ *)
(** ** [js/api.js] *)

Module GitHubAPI.

Definition API_BASE : string := "https://api.github.com".

(** [fetchUserRepos(username)] *)
Definition fetchUserRepos (w : Net.World) (username : jsval) : result Net.json :=
  let url := (API_BASE ++ "/users/" ++ toStr username ++ "/repos?per_page=100&sort=updated")%string in
  response <- Net.fetch w url ;;
  if negb (Net.ok response)
  then Throw (Error ("GitHub API error: " ++ ofZ (Net.status response)))
  else Net.json_body response.

(** [fetchUserProfile(username)] *)
Definition fetchUserProfile (w : Net.World) (username : jsval) : result Net.json :=
  let url := (API_BASE ++ "/users/" ++ toStr username)%string in
  response <- Net.fetch w url ;;
  if negb (Net.ok response)
  then Throw (Error ("GitHub API error: " ++ ofZ (Net.status response)))
  else Net.json_body response.

Definition filterPagesEnabled (repos : list Repo.t) : list Repo.t :=
  filter (fun repo => Repo.has_pages repo) repos.

Definition transformRepo (repo : Repo.t) (username : jsval) : Project.t :=
  {| Project.name := JStr (Repo.name repo);
     Project.description := Repo.description repo ||| JStr "";
     Project.url := JStr ("https://" ++ toStr username ++ ".github.io/" ++ Repo.name repo ++ "/");
     Project.repoUrl := JStr (Repo.html_url repo);
     Project.thumbnail := JNull;
     Project.isAutoDiscovered := true |}.

(** The predicate of the [filter] in [mergeWithConfig]. *)
Definition keptByConfig (config : Config.state) (repo : Repo.t) : bool :=
  negb (includes (Config.getExcluded config) (JStr (Repo.name repo)))
  && negb (includes (Config.getReposWithCustomUrls config) (JStr (Repo.name repo))).

(** The function of the [map] over the kept repositories. *)
Definition withOverride (config : Config.state) (username : jsval) (repo : Repo.t)
  : Project.t :=
  let project := transformRepo repo username in
  match Config.getProjectOverride config (Repo.name repo) with
  | Some override =>
      {| Project.name := Entry.name override ||| Project.name project;
         Project.description := Entry.description override ||| Project.description project;
         Project.url := Entry.url override ||| Project.url project;
         Project.repoUrl := Project.repoUrl project;
         Project.thumbnail := Entry.thumbnail override ||| Project.thumbnail project;
         Project.isAutoDiscovered := Project.isAutoDiscovered project |}
  | None => project
  end.

(** The function of the [map] over [Config.getManualProjects()]. *)
Definition manualProject (username : jsval) (p : Entry.t) : Project.t :=
  {| Project.name := Entry.name p ||| Entry.repo p;
     Project.description := Entry.description p ||| JStr "";
     Project.url := Entry.url p;
     Project.repoUrl :=
       if negb (strict_eq (Entry.repoUrl p) JUndefined) then Entry.repoUrl p
       else if truthy (Entry.repo p)
            then JStr ("https://github.com/" ++ toStr username ++ "/" ++ toStr (Entry.repo p))
            else JNull;
     Project.thumbnail := Entry.thumbnail p;
     Project.isAutoDiscovered := false |}.

(** The function of the [map] in [getManualProjectsOnly]. *)
Definition fallbackProject (username : jsval) (p : Entry.t) : Project.t :=
  {| Project.name := Entry.name p ||| Entry.repo p ||| JStr "Untitled";
     Project.description := Entry.description p ||| JStr "";
     Project.url :=
       Entry.url p |||
         (if truthy (Entry.repo p)
          then JStr ("https://" ++ toStr username ++ ".github.io/" ++ toStr (Entry.repo p) ++ "/")
          else JStr "#");
     Project.repoUrl :=
       if negb (strict_eq (Entry.repoUrl p) JNull) then Entry.repoUrl p
       else if truthy (Entry.repo p)
            then JStr ("https://github.com/" ++ toStr username ++ "/" ++ toStr (Entry.repo p))
            else JNull;
     Project.thumbnail := Entry.thumbnail p;
     Project.isAutoDiscovered := false |}.

Section Ordering.
(** [String.prototype.localeCompare] of the host, on two strings. *)
Variable localeCompare : string -> string -> Z.

(** [a.localeCompare(b)]: throws unless the receiver is a string; the
    argument goes through ToString. *)
Definition jsLocaleCompare (a b : jsval) : result Z :=
  match a with
  | JStr s => Ok (localeCompare s (toStr b))
  | JUndefined => Throw (TypeError "Cannot read properties of undefined")
  | JNull => Throw (TypeError "Cannot read properties of null")
  end.

(** The comparator of both sorts by [order]. *)
Definition byOrder (order : list jsval) (a b : Project.t) : result Z :=
  let aIndex := indexOf order (Project.name a) in
  let bIndex := indexOf order (Project.name b) in
  if negb (aIndex =? -1) && negb (bIndex =? -1) then Ok (aIndex - bIndex)
  else if negb (aIndex =? -1) then Ok (-1)
  else if negb (bIndex =? -1) then Ok 1
  else jsLocaleCompare (Project.name a) (Project.name b).

(** The comparator of the default alphabetical sort. *)
Definition byName (a b : Project.t) : result Z :=
  jsLocaleCompare (Project.name a) (Project.name b).

(** [mergeWithConfig(repos, username)] *)
Definition mergeWithConfig (config : Config.state) (repos : list Repo.t)
    (username : jsval) : result (list Project.t) :=
  let order := Config.getOrder config in
  let projects := map (withOverride config username) (filter (keptByConfig config) repos) in
  let manualProjects := map (manualProject username) (Config.getManualProjects config) in
  let projects := projects ++ manualProjects in
  if 0 <? Z.of_nat (List.length order)
  then sort (byOrder order) projects
  else sort byName projects.

(** The profile object built from the API's answer. *)
Definition profileOf (j : Net.json) : Profile.t :=
  match j with
  | Net.User login avatar_url html_url =>
      {| Profile.username := login;
         Profile.avatarUrl := avatar_url;
         Profile.profileUrl := html_url |}
  | Net.Repos _ =>
      {| Profile.username := JUndefined;
         Profile.avatarUrl := JUndefined;
         Profile.profileUrl := JUndefined |}
  end.

(** [getProjects()]; [Promise.all] rejects as soon as one request does. *)
Definition getProjects (config : Config.state) (w : Net.World)
  : result (list Project.t * Profile.t) :=
  let username := Config.getUsername config in
  repos <- fetchUserRepos w username ;;
  profile <- fetchUserProfile w username ;;
  match repos with
  | Net.Repos repos =>
      let pagesRepos := filterPagesEnabled repos in
      projects <- mergeWithConfig config pagesRepos username ;;
      Ok (projects, profileOf profile)
  | Net.User _ _ _ => Throw (TypeError "repos.filter is not a function")
  end.

(** [getManualProjectsOnly()] *)
Definition getManualProjectsOnly (config : Config.state)
  : result (list Project.t * Profile.t) :=
  let username := Config.getUsername config in
  let manualProjects := map (fallbackProject username) (Config.getProjects config) in
  let order := Config.getOrder config in
  manualProjects <- sort (byOrder order) manualProjects ;;
  Ok (manualProjects,
      {| Profile.username := username;
         Profile.avatarUrl := JStr ("https://github.com/" ++ toStr username ++ ".png");
         Profile.profileUrl := JStr ("https://github.com/" ++ toStr username) |}).
End Ordering.

End GitHubAPI.

(* ------------------------------------------------------------------ *)
(** ** A collation for the examples

    The properties below hold for every [localeCompare]; where an ordering
    property needs the comparison to be consistent, it is shown to apply to
    this one: ASCII letters compared without regard to case, character by
    character, a proper prefix first. *)

Module Collation.

Definition foldCase (c : ascii) : N :=
  let n := N_of_ascii c in
  if ((65 <=? n) && (n <=? 90))%N then (n + 32)%N else n.

Fixpoint keys (s : string) : list N :=
  match s with
  | EmptyString => []
  | String c s' => foldCase c :: keys s'
  end.

Fixpoint lexCompare (k1 k2 : list N) : Z :=
  match k1, k2 with
  | [], [] => 0
  | [], _ :: _ => -1
  | _ :: _, [] => 1
  | a :: k1', b :: k2' =>
      if (a <? b)%N then -1
      else if (b <? a)%N then 1
      else lexCompare k1' k2'
  end.

Definition caseless (s t : string) : Z := lexCompare (keys s) (keys t).

End Collation.

(* ------------------------------------------------------------------ *)
(** ** The reconciler, in the words of the specification

    Names for the parts of [getProjects] and [mergeWithConfig] that the
    specification talks about.  Each is an expression of the source. *)

Module Reconciler.

(** The module state once the page has awaited [Config.load()], which
    [App.init] does before anything else. *)
Definition loaded (jsyaml_load : string -> result Yaml.doc) (w : Net.World)
  : Config.state :=
  snd (Config.load jsyaml_load None w).

(** What [getProjects] computes from the repositories of the API:
    the pages filter, then the merge. *)
Definition reconcile (localeCompare : string -> string -> Z)
    (config : Config.state) (repos : list Repo.t) (account : jsval)
  : result (list Project.t) :=
  GitHubAPI.mergeWithConfig localeCompare config
    (GitHubAPI.filterPagesEnabled repos) account.

(** The projects of the fallback. *)
Definition reconcileManualOnly (localeCompare : string -> string -> Z)
    (config : Config.state) : result (list Project.t) :=
  r <- GitHubAPI.getManualProjectsOnly localeCompare config ;; Ok (fst r).

(** The repositories that pass both filters. *)
Definition survivors (config : Config.state) (repos : list Repo.t) : list Repo.t :=
  filter (GitHubAPI.keptByConfig config) (GitHubAPI.filterPagesEnabled repos).

(** The two lists [mergeWithConfig] concatenates. *)
Definition autoBranch (config : Config.state) (account : jsval) (repos : list Repo.t)
  : list Project.t :=
  map (GitHubAPI.withOverride config account) (survivors config repos).

Definition manualBranch (config : Config.state) (account : jsval) : list Project.t :=
  map (GitHubAPI.manualProject account) (Config.getManualProjects config).

(** The entries of the manual branch that name the repository [n], and
    the projects the repository [n] gives rise to through either branch. *)
Definition namesRepo (n : string) (p : Entry.t) : bool :=
  strict_eq (Entry.repo p) (JStr n).

Definition hasName (n : string) (r : Repo.t) : bool := (Repo.name r =? n)%string.

Definition contributed (config : Config.state) (account : jsval)
    (repos : list Repo.t) (n : string) : list Project.t :=
  map (GitHubAPI.withOverride config account) (filter (hasName n) (survivors config repos))
  ++ map (GitHubAPI.manualProject account)
       (filter (namesRepo n) (Config.getManualProjects config)).

(** The projects of the two branches that do not come from [n]. *)
Definition others (config : Config.state) (account : jsval)
    (repos : list Repo.t) (n : string) : list Project.t :=
  map (GitHubAPI.withOverride config account)
    (filter (fun r => negb (hasName n r)) (survivors config repos))
  ++ map (GitHubAPI.manualProject account)
       (filter (fun p => negb (namesRepo n p)) (Config.getManualProjects config)).

(** An entry as [normalizeProject] leaves it. *)
Definition normalized (e : Entry.t) : Prop :=
  exists raw, Config.normalizeProject (Some raw) = Ok e.

(** A project whose [name] is a string: [localeCompare] can be called
    on it. *)
Definition namedByString (p : Project.t) : Prop :=
  exists s, Project.name p = JStr s.

(** The number the comparator of the sorts returns when it returns. *)
Definition byOrderZ (localeCompare : string -> string -> Z) (order : list jsval)
    (a b : Project.t) : Z :=
  let aIndex := indexOf order (Project.name a) in
  let bIndex := indexOf order (Project.name b) in
  if negb (aIndex =? -1) && negb (bIndex =? -1) then aIndex - bIndex
  else if negb (aIndex =? -1) then -1
  else if negb (bIndex =? -1) then 1
  else localeCompare (toStr (Project.name a)) (toStr (Project.name b)).

(** The order of §4.1 step 7 on two names, as the specification words it:
    by index when both are listed in [order], a listed name before an
    unlisted one, the collation when neither is listed. *)
Definition precedes (localeCompare : string -> string -> Z) (order : list jsval)
    (a b : Project.t) : Prop :=
  let na := Project.name a in
  let nb := Project.name b in
  (In na order -> In nb order -> indexOf order na <= indexOf order nb)
  /\ (In nb order -> In na order)
  /\ (~ In na order -> ~ In nb order -> localeCompare (toStr na) (toStr nb) <= 0).

(** The count of §8 as written: the repositories that pass the filters
    plus all the manual entries. *)
Definition countAsSpecified (localeCompare : string -> string -> Z)
    (config : Config.state) (repos : list Repo.t) (account : jsval) : Prop :=
  exists out,
    reconcile localeCompare config repos account = Ok out
    /\ List.length out
       = (List.length (survivors config repos)
          + List.length (Config.getProjects config))%nat.

(** "Exactly once, from the manual path, with the configured url", as
    written: one project for the repository, whatever the entries. *)
Definition onceAsSpecified (config : Config.state) (account : jsval)
    (repos : list Repo.t) : Prop :=
  forall (r : Repo.t) (e : Entry.t),
    In r repos -> Repo.has_pages r = true ->
    In e (Config.getProjects config) ->
    Entry.repo e = JStr (Repo.name r) -> Entry.url e <> JNull ->
    ~ In r (survivors config repos)
    /\ contributed config account repos (Repo.name r)
       = [GitHubAPI.manualProject account e].

End Reconciler.

(* ------------------------------------------------------------------ *)
(** ** Sample inputs *)

Module Sample.

(** A network on which [projects.yaml] is served, and nothing else. *)
Definition world : Net.World :=
  Net.mkWorld (fun url =>
    if (url =? "projects.yaml")%string
    then Ok (Net.mkResponse true 200 (Ok "username: alice") (Throw (Error "not JSON")))
    else Throw (TypeError "Failed to fetch")).

(** A network that is down. *)
Definition offline : Net.World :=
  Net.mkWorld (fun _ => Throw (TypeError "Failed to fetch")).

(** A parser that returns the given document. *)
Definition parsesTo (m : Yaml.mapping) : string -> result Yaml.doc :=
  fun _ => Ok (Yaml.Mapping m).

Definition configOf (entries : list Entry.t) (order : list jsval) : Config.state :=
  Reconciler.loaded
    (parsesTo (Yaml.mk (JStr "alice") None (Some order) (Yaml.Items (map Some entries))))
    world.

Definition repo (n : string) (pages : bool) : Repo.t :=
  Repo.mk n (JStr "orig") ("https://github.com/alice/" ++ n) pages.

(** [{repo: "x", description: "custom"}]: an override without a url. *)
Definition overrideOnly : Entry.t :=
  Entry.mk (JStr "x") JUndefined (JStr "custom") JUndefined JUndefined JUndefined JUndefined.

(** [{repo: "proj1", url: "https://example.com/proj1"}] *)
Definition redirected : Entry.t :=
  Entry.mk (JStr "proj1") JUndefined JUndefined (JStr "https://example.com/proj1")
    JUndefined JUndefined JUndefined.

(** [{repo: "proj1", url: "https://mirror.example.com/"}] *)
Definition redirectedAgain : Entry.t :=
  Entry.mk (JStr "proj1") JUndefined JUndefined (JStr "https://mirror.example.com/")
    JUndefined JUndefined JUndefined.

(** [{repo: "proj1", repoUrl: null}] *)
Definition noRepoLink : Entry.t :=
  Entry.mk (JStr "proj1") JUndefined JUndefined JUndefined JNull JUndefined JUndefined.

(** [{repo: "proj1"}] *)
Definition repoOnly : Entry.t :=
  Entry.mk (JStr "proj1") JUndefined JUndefined JUndefined JUndefined JUndefined JUndefined.

(** [{name: "Notes"}]: neither url nor repo. *)
Definition nameOnly : Entry.t :=
  Entry.mk JUndefined (JStr "Notes") JUndefined JUndefined JUndefined JUndefined JUndefined.

End Sample.

(* ------------------------------------------------------------------ *)
(** ** [js/app.js]: the page

    The part of the document the application writes to is a record; the
    functions of [App] are state transformers on it.  The elements are
    taken to exist, so that writing to them does not throw; what can throw
    is [createTile], on a project whose [name] is not a string.
    [toLowerCase] and [trim] are the host's; [escapeHtml] and the markup of
    a tile are left out, a tile keeps the values the markup is built
    from. *)

Module App.

(** A tile of the grid: the link, the two [data-] attributes the search
    reads, the image source and the repository link when there are any, the
    two texts, and whether [style.display] is [''] rather than ['none']. *)
Record Tile : Type := mkTile {
  href : jsval;
  dataName : string;
  dataDescription : string;
  image : option jsval;
  repoLink : option jsval;
  heading : jsval;
  blurb : jsval;
  shown : bool
}.

(** The content of [#project-grid]: tiles, or markup set as a whole. *)
Inductive Grid : Type :=
| Tiles (tiles : list Tile)
| Markup (html : string).

Record Header : Type := mkHeader {
  picSrc : jsval;
  picAlt : string;
  nameText : jsval;
  linkHref : jsval
}.

Record Page : Type := mkPage {
  theme : jsval;
  loadingHidden : bool;
  gridHidden : bool;
  header : Header;
  grid : Grid;
  noResultsVisible : bool;
  backToTopVisible : bool;
  allProjects : list Project.t
}.

Definition setTheme (v : jsval) (page : Page) : Page :=
  mkPage v (loadingHidden page) (gridHidden page) (header page) (grid page)
    (noResultsVisible page) (backToTopVisible page) (allProjects page).

Definition setGrid (g : Grid) (page : Page) : Page :=
  mkPage (theme page) (loadingHidden page) (gridHidden page) (header page) g
    (noResultsVisible page) (backToTopVisible page) (allProjects page).

Definition setAllProjects (projects : list Project.t) (page : Page) : Page :=
  mkPage (theme page) (loadingHidden page) (gridHidden page) (header page) (grid page)
    (noResultsVisible page) (backToTopVisible page) projects.

(** [initTheme()], given what [prefers-color-scheme: dark] matches. *)
Definition initTheme (prefersDark : bool) (page : Page) : Page :=
  setTheme (JStr (if prefersDark then "dark" else "light")) page.

(** [toggleTheme()]; [getAttribute] gives [null] for a missing attribute. *)
Definition toggleTheme (page : Page) : Page :=
  let currentTheme := theme page in
  let newTheme := if strict_eq currentTheme (JStr "dark") then JStr "light" else JStr "dark" in
  setTheme newTheme page.

Definition showLoading (page : Page) : Page :=
  mkPage (theme page) false true (header page) (grid page)
    (noResultsVisible page) (backToTopVisible page) (allProjects page).

Definition hideLoading (page : Page) : Page :=
  mkPage (theme page) true false (header page) (grid page)
    (noResultsVisible page) (backToTopVisible page) (allProjects page).

Definition updateHeader (profile : Profile.t) (page : Page) : Page :=
  mkPage (theme page) (loadingHidden page) (gridHidden page)
    {| picSrc := Profile.avatarUrl profile;
       picAlt := (toStr (Profile.username profile) ++ "'s profile picture")%string;
       nameText := Profile.username profile;
       linkHref := Profile.profileUrl profile |}
    (grid page) (noResultsVisible page) (backToTopVisible page) (allProjects page).

Definition updateNoResultsVisibility (visibleCount : nat) (page : Page) : Page :=
  mkPage (theme page) (loadingHidden page) (gridHidden page) (header page) (grid page)
    (Nat.eqb visibleCount 0) (backToTopVisible page) (allProjects page).

(** [handleScroll()], given [window.scrollY]. *)
Definition handleScroll (scrollY : Z) (page : Page) : Page :=
  let showThreshold := 300 in
  mkPage (theme page) (loadingHidden page) (gridHidden page) (header page) (grid page)
    (noResultsVisible page) (showThreshold <? scrollY) (allProjects page).

(** [s.includes(q)]: [q] occurs in [s]. *)
Fixpoint strIncludes (s q : string) : bool :=
  match s with
  | EmptyString => (q =? "")%string
  | String _ s' => String.prefix q s || strIncludes s' q
  end.

Section Host.
(** [String.prototype.toLowerCase] and [String.prototype.trim]. *)
Variable toLowerCase : string -> string.
Variable trim : string -> string.

(** [v.toLowerCase()] on a value: throws unless [v] is a string. *)
Definition jsToLowerCase (v : jsval) : result string :=
  match v with
  | JStr s => Ok (toLowerCase s)
  | JUndefined => Throw (TypeError "Cannot read properties of undefined")
  | JNull => Throw (TypeError "Cannot read properties of null")
  end.

(** [createTile(project)] *)
Definition createTile (project : Project.t) : result Tile :=
  name <- jsToLowerCase (Project.name project) ;;
  description <- jsToLowerCase (Project.description project ||| JStr "") ;;
  Ok {| href := Project.url project ||| JStr "#";
        dataName := name;
        dataDescription := description;
        image := if truthy (Project.thumbnail project)
                 then Some (Project.thumbnail project) else None;
        repoLink := if truthy (Project.repoUrl project)
                    then Some (Project.repoUrl project) else None;
        heading := Project.name project;
        blurb := Project.description project ||| JStr "No description available";
        shown := true |}.

(** The [forEach] of [renderProjects]: tiles are appended one by one; when
    [createTile] throws, those appended so far stay. *)
Fixpoint appendTiles (projects : list Project.t) (tiles : list Tile)
  : result unit * list Tile :=
  match projects with
  | [] => (Ok tt, tiles)
  | project :: rest =>
      match createTile project with
      | Ok tile => appendTiles rest (tiles ++ [tile])
      | Throw e => (Throw e, tiles)
      end
  end.

(** [renderProjects(projects)]: the outcome and the page it leaves. *)
Definition renderProjects (projects : list Project.t) (page : Page) : result unit * Page :=
  let (outcome, tiles) := appendTiles projects [] in
  let page := setGrid (Tiles tiles) page in
  match outcome with
  | Ok _ => (Ok tt, updateNoResultsVisibility (List.length projects) page)
  | Throw e => (Throw e, page)
  end.

(** The test of [filterProjects] on one tile. *)
Definition matchesQuery (normalizedQuery : string) (tile : Tile) : bool :=
  strIncludes (dataName tile) normalizedQuery
  || strIncludes (dataDescription tile) normalizedQuery.

Definition setShown (b : bool) (tile : Tile) : Tile :=
  mkTile (href tile) (dataName tile) (dataDescription tile) (image tile) (repoLink tile)
    (heading tile) (blurb tile) b.

(** [filterProjects(query)]; [querySelectorAll('.project-tile')] finds no
    tile in a grid that holds other markup. *)
Definition filterProjects (query : string) (page : Page) : Page :=
  let normalizedQuery := trim (toLowerCase query) in
  match grid page with
  | Tiles tiles =>
      let tiles := map (fun tile => setShown (matchesQuery normalizedQuery tile) tile) tiles in
      let visibleCount := List.length (filter shown tiles) in
      updateNoResultsVisibility visibleCount (setGrid (Tiles tiles) page)
  | Markup _ => updateNoResultsVisibility 0 page
  end.

Variable jsyaml_load : string -> result Yaml.doc.
Variable localeCompare : string -> string -> Z.

(** What both [try] blocks of [init] do with the projects they obtained. *)
Definition display (answer : list Project.t * Profile.t) (page : Page)
  : result unit * Page :=
  let (projects, profile) := answer in
  let page := setAllProjects projects page in
  let page := updateHeader profile page in
  renderProjects projects page.

(** What a page holds once [display] has gone through: the projects, the
    header of the profile, a tile for each project in the same order, and
    the "no results" message exactly when there is no project. *)
Definition displays (answer : list Project.t * Profile.t) (page : Page) : Prop :=
  allProjects page = fst answer
  /\ header page
     = {| picSrc := Profile.avatarUrl (snd answer);
          picAlt := (toStr (Profile.username (snd answer)) ++ "'s profile picture")%string;
          nameText := Profile.username (snd answer);
          linkHref := Profile.profileUrl (snd answer) |}
  /\ noResultsVisible page = Nat.eqb (List.length (fst answer)) 0
  /\ exists tiles,
       grid page = Tiles tiles
       /\ Forall2 (fun p t => createTile p = Ok t) (fst answer) tiles.

(** An answer that [display] cannot go through with: none came, or
    [createTile] throws on one of its projects. *)
Definition cannotShow (answer : result (list Project.t * Profile.t)) : Prop :=
  match answer with
  | Throw _ => True
  | Ok answer => exists p e, In p (fst answer) /\ createTile p = Throw e
  end.

(** Every project of the answer can be made a tile. *)
Definition renders (answer : list Project.t * Profile.t) : Prop :=
  Forall (fun p => exists t, createTile p = Ok t) (fst answer).

(** [init()]: the page and the module state of [Config] it ends with. *)
Definition init (prefersDark : bool) (config : Config.state) (w : Net.World)
    (page : Page) : Page * Config.state :=
  let page := initTheme prefersDark page in
  let page := showLoading page in
  let config := snd (Config.load jsyaml_load config w) in
  let (outcome, page) :=
    match GitHubAPI.getProjects localeCompare config w with
    | Ok answer => display answer page
    | Throw e => (Throw e, page)
    end in
  let page :=
    match outcome with
    | Ok _ => page
    | Throw _ =>
        let (outcome, page) :=
          match GitHubAPI.getManualProjectsOnly localeCompare config with
          | Ok answer => display answer page
          | Throw e => (Throw e, page)
          end in
        match outcome with
        | Ok _ => page
        | Throw _ =>
            (* the text of the paragraph the source sets as [innerHTML] *)
            setGrid (Markup "Unable to load projects") page
        end
    end in
  (hideLoading page, config).

End Host.

End App.

(** Further sample inputs. *)
Module Demo.

(** A page before [init]. *)
Definition blank : App.Page :=
  App.mkPage JNull false false (App.mkHeader JUndefined "" JUndefined JUndefined)
    (App.Tiles []) false false [].

(** [projects.yaml] is served; the API answers every other request with
    the given status and bodies. *)
Definition api (ok : bool) (status : Z) (repos : list Repo.t) : Net.World :=
  Net.mkWorld (fun url =>
    if (url =? "projects.yaml")%string
    then Ok (Net.mkResponse true 200 (Ok "username: alice") (Throw (Error "not JSON")))
    else if (url =? "https://api.github.com/users/alice")%string
    then Ok (Net.mkResponse ok status (Throw (Error "not read"))
               (Ok (Net.User (JStr "alice") (JStr "https://avatars.example/alice")
                      (JStr "https://github.com/alice"))))
    else Ok (Net.mkResponse ok status (Throw (Error "not read")) (Ok (Net.Repos repos)))).

(** A document with an exclusion list. *)
Definition document (exclude : list jsval) (items : list (option Entry.t)) : Yaml.mapping :=
  Yaml.mk (JStr "alice") (Some exclude) None (Yaml.Items items).

(** Hosts for the examples: ASCII letters only. *)
Definition lowerAscii (c : ascii) : ascii :=
  let n := N_of_ascii c in
  if ((65 <=? n) && (n <=? 90))%N then ascii_of_N (n + 32) else c.

Fixpoint toLowerCase (s : string) : string :=
  match s with
  | EmptyString => EmptyString
  | String c s' => String (lowerAscii c) (toLowerCase s')
  end.

Fixpoint trimStart (s : string) : string :=
  match s with
  | String " " s' => trimStart s'
  | _ => s
  end.

Fixpoint rev (s acc : string) : string :=
  match s with
  | EmptyString => acc
  | String c s' => rev s' (String c acc)
  end.

Definition trim (s : string) : string :=
  rev (trimStart (rev (trimStart s) "")) "".

End Demo.

(* ------------------------------------------------------------------ *)
(** * Properties *)

Import Reconciler.

(** ** Values *)

Lemma truthy_is_string (v : jsval) :
  truthy v = true -> exists s, v = JStr s /\ s <> ""%string.
Proof.
  destruct v as [| |s]; simpl; try discriminate.
  intros H. exists s. split; [reflexivity|].
  intros ->. discriminate.
Qed.

Lemma js_or_string (a : jsval) (s : string) : exists t, a ||| JStr s = JStr t.
Proof.
  unfold js_or. destruct (truthy a) eqn:E.
  - destruct (truthy_is_string a E) as [t [-> _]]. now exists t.
  - now exists s.
Qed.

Lemma js_or_truthy_l (a b : jsval) : truthy a = true -> a ||| b = a.
Proof. unfold js_or. now intros ->. Qed.

Lemma js_or_falsy_l (a b : jsval) : truthy a = false -> a ||| b = b.
Proof. unfold js_or. now intros ->. Qed.

Lemma js_or_null_cases (a : jsval) :
  a ||| JNull = JNull \/ (a ||| JNull = a /\ truthy a = true).
Proof. unfold js_or. destruct (truthy a); auto. Qed.

Lemma strict_eq_true (a b : jsval) : strict_eq a b = true <-> a = b.
Proof.
  destruct a, b; simpl; split; try discriminate; try reflexivity.
  - intros H. apply String.eqb_eq in H. now subst.
  - intros H. injection H as ->. apply String.eqb_refl.
Qed.

Lemma includes_In (xs : list jsval) (v : jsval) : includes xs v = true <-> In v xs.
Proof.
  unfold includes. rewrite existsb_exists. split.
  - intros [x [Hin Heq]]. apply strict_eq_true in Heq. now subst.
  - intros Hin. exists v. split; [assumption | now apply strict_eq_true].
Qed.

Lemma indexOf_cases (xs : list jsval) (v : jsval) :
  (indexOf xs v = -1 /\ ~ In v xs) \/ (0 <= indexOf xs v /\ In v xs).
Proof.
  induction xs as [|x xs IH]; simpl.
  - left. split; [reflexivity | tauto].
  - destruct (strict_eq x v) eqn:E.
    + apply strict_eq_true in E. right. split; [lia | now left].
    + assert (x <> v) as Hne.
      { intros ->. rewrite (proj2 (strict_eq_true v v) eq_refl) in E. discriminate. }
      destruct IH as [[Hi Hn] | [Hi Hin]].
      * rewrite Hi. simpl. left. split; [reflexivity|]. intros [Hx | Hin]; auto.
      * destruct (indexOf xs v =? -1) eqn:Ei; [apply Z.eqb_eq in Ei; lia|].
        right. split; [lia | now right].
Qed.

Lemma indexOf_absent (xs : list jsval) (v : jsval) : indexOf xs v = -1 <-> ~ In v xs.
Proof.
  destruct (indexOf_cases xs v) as [[Hi Hn] | [Hi Hin]]; split; auto; try lia; tauto.
Qed.

(** ** The sort *)

Section SortFacts.
Context {A : Type}.
Variable cmp : A -> A -> result Z.
(** The comparator without its exceptions, and where the two agree. *)
Variable f : A -> A -> Z.
Variable P : A -> Prop.
Hypothesis agree : forall x y, P x -> P y -> cmp x y = Ok (f x y).

Let le (x y : A) : Prop := f x y <= 0.

Lemma insertSorted_perm (x : A) (l : list A) :
  P x -> Forall P l ->
  exists r, insertSorted cmp x l = Ok r /\ Permutation (x :: l) r.
Proof.
  intros Px. induction l as [|y l IH]; intros Hl; simpl.
  - eexists; split; [reflexivity | apply Permutation_refl].
  - inversion Hl as [|? ? Py Hl']; subst.
    rewrite (agree x y Px Py). simpl.
    destruct (f x y <=? 0).
    + eexists; split; [reflexivity | apply Permutation_refl].
    + destruct (IH Hl') as [r [Hr Hp]]. rewrite Hr. simpl.
      eexists; split; [reflexivity|].
      eapply perm_trans; [apply perm_swap | now apply perm_skip].
Qed.

Lemma sort_perm (l : list A) :
  Forall P l -> exists s, sort cmp l = Ok s /\ Permutation l s.
Proof.
  induction l as [|x l IH]; intros Hl; simpl.
  - eexists; split; [reflexivity | constructor].
  - inversion Hl as [|? ? Px Hl']; subst.
    destruct (IH Hl') as [s [Hs Hp]]. rewrite Hs. simpl.
    assert (Forall P s) as HPs.
    { rewrite Forall_forall in *. intros z Hz. apply Hl'.
      eapply Permutation_in; [apply Permutation_sym; eassumption | assumption]. }
    destruct (insertSorted_perm x s Px HPs) as [r [Hr Hpr]].
    exists r. split; [assumption|].
    eapply perm_trans; [apply perm_skip; eassumption | assumption].
Qed.

(** A consistent comparator: any two elements are comparable one way or
    the other, and the comparison is transitive. *)
Hypothesis total : forall x y, f x y <= 0 \/ f y x <= 0.
Hypothesis trans : forall x y z, f x y <= 0 -> f y z <= 0 -> f x z <= 0.

Lemma insertSorted_sorted (x : A) (l r : list A) :
  P x -> Forall P l ->
  insertSorted cmp x l = Ok r -> StronglySorted le l -> StronglySorted le r.
Proof.
  intros Px. revert r. induction l as [|y l IH]; intros r Hl; simpl.
  - intros [= <-] _. repeat constructor.
  - inversion Hl as [|? ? Py Hl']; subst.
    rewrite (agree x y Px Py). simpl.
    destruct (f x y <=? 0) eqn:E.
    + intros [= <-] Hs. apply Z.leb_le in E.
      constructor; [assumption|].
      constructor; [exact E|].
      inversion Hs as [|? ? _ Hall]; subst.
      eapply Forall_impl; [|exact Hall]. intros z Hz. eapply trans; eassumption.
    + apply Z.leb_gt in E.
      destruct (insertSorted_perm x l Px Hl') as [r' [Hr' Hp]].
      rewrite Hr'. simpl. intros [= <-] Hs.
      inversion Hs as [|? ? Hs' Hall]; subst.
      constructor; [now apply IH|].
      rewrite Forall_forall in *. intros z Hz.
      apply Permutation_sym in Hp.
      destruct (Permutation_in _ Hp Hz) as [<- | Hin].
      * destruct (total x y) as [H|H]; [lia | exact H].
      * now apply Hall.
Qed.

Lemma sort_sorted (l s : list A) :
  Forall P l -> sort cmp l = Ok s -> StronglySorted le s.
Proof.
  revert s. induction l as [|x l IH]; intros s Hl; simpl.
  - intros [= <-]. constructor.
  - inversion Hl as [|? ? Px Hl']; subst.
    destruct (sort_perm l Hl') as [s' [Hs' Hp]]. rewrite Hs'. simpl.
    intros Hr. eapply insertSorted_sorted; [exact Px | | exact Hr | now apply IH].
    rewrite Forall_forall in *. intros z Hz. apply Hl'.
    eapply Permutation_in; [apply Permutation_sym; eassumption | assumption].
Qed.
End SortFacts.


(** ** The configuration after [load] *)

Lemma normalized_name (e : Entry.t) :
  normalized e -> exists s, Entry.name e = JStr s /\ truthy (Entry.name e) = true.
Proof.
  intros [raw [= <-]]. simpl.
  set (v := Entry.name raw ||| Entry.repo raw).
  unfold js_or. destruct (truthy v) eqn:E.
  - destruct (truthy_is_string v E) as [s [Hs _]]. exists s. split; [exact Hs | exact E].
  - exists "Untitled"%string. split; reflexivity.
Qed.

Lemma normalized_url (e : Entry.t) :
  normalized e -> Entry.url e = JNull \/ truthy (Entry.url e) = true.
Proof.
  intros [raw [= <-]]. simpl.
  destruct (js_or_null_cases (Entry.url raw)) as [H | [H Ht]]; rewrite H; auto.
Qed.

Lemma normalized_repo (e : Entry.t) :
  normalized e -> Entry.repo e = JNull \/ truthy (Entry.repo e) = true.
Proof.
  intros [raw [= <-]]. simpl.
  destruct (js_or_null_cases (Entry.repo raw)) as [H | [H Ht]]; rewrite H; auto.
Qed.

Lemma normalized_repoUrl (e : Entry.t) :
  normalized e -> Entry.repoUrl e <> JUndefined.
Proof.
  intros [raw [= <-]]. simpl.
  destruct (Entry.repoUrl raw); simpl; discriminate.
Qed.

Lemma normalized_url_truthy (e : Entry.t) :
  normalized e -> (truthy (Entry.url e) = true <-> Entry.url e <> JNull).
Proof.
  intros Hn. destruct (normalized_url e Hn) as [H | H].
  - rewrite H. simpl. split; [discriminate | congruence].
  - split; [|auto]. intros _ Hnull. rewrite Hnull in H. discriminate.
Qed.

Lemma mapM_normalizeProject (items : list (option Entry.t)) (l : list Entry.t) :
  mapM Config.normalizeProject items = Ok l -> Forall normalized l.
Proof.
  revert l. induction items as [|i items IH]; intros l; simpl.
  - intros [= <-]. constructor.
  - destruct i as [raw|]; [|discriminate].
    simpl. destruct (mapM Config.normalizeProject items) as [l'|] eqn:E; [|discriminate].
    simpl. intros [= <-]. constructor; [now exists raw | now apply IH].
Qed.

Section Loaded.
Variable jsyaml_load : string -> result Yaml.doc.
Variable w : Net.World.

Lemma tryLoad_normalized (c : Config.Configuration) :
  Config.tryLoad jsyaml_load w = Ok c -> Forall normalized (Config.projects c).
Proof.
  unfold Config.tryLoad.
  destruct (Net.fetch w "projects.yaml") as [response|]; [|discriminate]. simpl.
  destruct (Net.ok response); simpl; [|discriminate].
  destruct (Net.text response) as [yamlText|]; [|discriminate]. simpl.
  destruct (jsyaml_load yamlText) as [parsed|]; [|discriminate]. simpl.
  set (m := match parsed with Yaml.Falsy => Yaml.empty | Yaml.Mapping m => m end).
  destruct (Yaml.projects m) as [|items|]; simpl.
  - intros [= <-]. constructor.
  - destruct (mapM Config.normalizeProject items) as [l|] eqn:E; [|discriminate].
    simpl. intros [= <-]. simpl. now apply mapM_normalizeProject with items.
  - discriminate.
Qed.

Lemma load_memoizes (config : Config.state) :
  snd (Config.load jsyaml_load config w) = Some (fst (Config.load jsyaml_load config w)).
Proof.
  unfold Config.load. destruct config; [reflexivity|].
  destruct (Config.tryLoad jsyaml_load w); reflexivity.
Qed.

Lemma loaded_normalized :
  Forall normalized (Config.getProjects (Reconciler.loaded jsyaml_load w)).
Proof.
  unfold Reconciler.loaded, Config.load.
  destruct (Config.tryLoad jsyaml_load w) as [c|] eqn:E; simpl.
  - now apply tryLoad_normalized.
  - constructor.
Qed.
End Loaded.

(** ** The two branches of the merge *)

Lemma withOverride_named config account r :
  namedByString (GitHubAPI.withOverride config account r).
Proof.
  unfold GitHubAPI.withOverride, namedByString.
  destruct (Config.getProjectOverride config (Repo.name r)); simpl.
  - apply js_or_string.
  - now eexists.
Qed.

Lemma manualProject_named account e :
  normalized e -> namedByString (GitHubAPI.manualProject account e).
Proof.
  intros Hn. destruct (normalized_name e Hn) as [s [Hs Ht]].
  exists s. simpl. now rewrite js_or_truthy_l.
Qed.

Lemma fallbackProject_named account e :
  namedByString (GitHubAPI.fallbackProject account e).
Proof. unfold namedByString. simpl. apply js_or_string. Qed.

Lemma getManualProjects_incl config e :
  In e (Config.getManualProjects config) -> In e (Config.getProjects config).
Proof. unfold Config.getManualProjects. intros H. now apply filter_In in H. Qed.

Lemma branches_named config account repos :
  Forall normalized (Config.getProjects config) ->
  Forall namedByString
    (Reconciler.autoBranch config account repos ++ Reconciler.manualBranch config account).
Proof.
  intros Hn. apply Forall_app. split; apply Forall_forall; intros p Hp.
  - apply in_map_iff in Hp as [r [<- _]]. apply withOverride_named.
  - apply in_map_iff in Hp as [e [<- He]]. apply manualProject_named.
    rewrite Forall_forall in Hn. now apply Hn, getManualProjects_incl.
Qed.

(** ** The comparator *)

Section Comparator.
Variable localeCompare : string -> string -> Z.

Lemma byOrder_agrees (order : list jsval) (a b : Project.t) :
  namedByString a -> namedByString b ->
  GitHubAPI.byOrder localeCompare order a b = Ok (byOrderZ localeCompare order a b).
Proof.
  intros [s Hs] _. unfold GitHubAPI.byOrder, byOrderZ, GitHubAPI.jsLocaleCompare.
  rewrite Hs. simpl.
  destruct (indexOf order (JStr s) =? -1), (indexOf order (Project.name b) =? -1);
    reflexivity.
Qed.

Lemma byName_agrees (a b : Project.t) :
  namedByString a -> namedByString b ->
  GitHubAPI.byName localeCompare a b = Ok (byOrderZ localeCompare [] a b).
Proof.
  intros [s Hs] _. unfold GitHubAPI.byName, byOrderZ, GitHubAPI.jsLocaleCompare.
  rewrite Hs. reflexivity.
Qed.

Lemma byOrderZ_precedes (order : list jsval) (a b : Project.t) :
  byOrderZ localeCompare order a b <= 0 -> precedes localeCompare order a b.
Proof.
  unfold byOrderZ, precedes. cbv zeta.
  destruct (indexOf_cases order (Project.name a)) as [[Ia Ha] | [Ia Ha]];
    destruct (indexOf_cases order (Project.name b)) as [[Ib Hb] | [Ib Hb]].
  - rewrite Ia, Ib. simpl. intros H. repeat split; tauto.
  - rewrite Ia. simpl.
    destruct (indexOf order (Project.name b) =? -1) eqn:E; [apply Z.eqb_eq in E; lia|].
    simpl. lia.
  - rewrite Ib. simpl.
    destruct (indexOf order (Project.name a) =? -1) eqn:E; [apply Z.eqb_eq in E; lia|].
    simpl. intros _. repeat split; tauto.
  - destruct (indexOf order (Project.name a) =? -1) eqn:E; [apply Z.eqb_eq in E; lia|].
    destruct (indexOf order (Project.name b) =? -1) eqn:E'; [apply Z.eqb_eq in E'; lia|].
    simpl. intros H. repeat split; try tauto. intros _ _. lia.
Qed.

Hypothesis total : forall s t, localeCompare s t <= 0 \/ localeCompare t s <= 0.
Hypothesis trans :
  forall s t u, localeCompare s t <= 0 -> localeCompare t u <= 0 -> localeCompare s u <= 0.

Lemma byOrderZ_total (order : list jsval) (a b : Project.t) :
  byOrderZ localeCompare order a b <= 0 \/ byOrderZ localeCompare order b a <= 0.
Proof.
  unfold byOrderZ. cbv zeta.
  destruct (indexOf order (Project.name a) =? -1) eqn:Ea;
    destruct (indexOf order (Project.name b) =? -1) eqn:Eb; simpl;
    try apply total; lia.
Qed.

Lemma byOrderZ_trans (order : list jsval) (a b c : Project.t) :
  byOrderZ localeCompare order a b <= 0 -> byOrderZ localeCompare order b c <= 0 ->
  byOrderZ localeCompare order a c <= 0.
Proof.
  unfold byOrderZ. cbv zeta.
  destruct (indexOf order (Project.name a) =? -1) eqn:Ea;
    destruct (indexOf order (Project.name b) =? -1) eqn:Eb;
    destruct (indexOf order (Project.name c) =? -1) eqn:Ec; simpl;
    try apply trans; lia.
Qed.
End Comparator.

(** ** The merge: it returns, and what it returns *)

Section Merge.
Variable localeCompare : string -> string -> Z.
Variable config : Config.state.
Variable repos : list Repo.t.
Variable account : jsval.
Hypothesis config_normalized : Forall normalized (Config.getProjects config).

Lemma order_length_zero :
  (0 <? Z.of_nat (List.length (Config.getOrder config))) = false ->
  Config.getOrder config = [].
Proof.
  destruct (Config.getOrder config); [reflexivity|].
  simpl List.length. intros H. apply Z.ltb_ge in H. lia.
Qed.

Lemma reconcile_branches :
  exists out,
    reconcile localeCompare config repos account = Ok out
    /\ Permutation (autoBranch config account repos ++ manualBranch config account) out.
Proof.
  pose proof (branches_named config account repos config_normalized) as Hn.
  unfold reconcile, GitHubAPI.mergeWithConfig. cbv zeta.
  fold (survivors config repos).
  fold (autoBranch config account repos).
  fold (manualBranch config account).
  destruct (0 <? Z.of_nat (List.length (Config.getOrder config))).
  - exact (sort_perm _ _ _ (byOrder_agrees localeCompare _) _ Hn).
  - exact (sort_perm _ _ _ (byName_agrees localeCompare) _ Hn).
Qed.

Lemma reconcile_length (out : list Project.t) :
  reconcile localeCompare config repos account = Ok out ->
  List.length out
  = (List.length (survivors config repos)
     + List.length (Config.getManualProjects config))%nat.
Proof.
  intros Hout. destruct reconcile_branches as [out' [Hout' Hp]].
  rewrite Hout in Hout'. injection Hout' as <-.
  rewrite <- (Permutation_length Hp), length_app.
  unfold autoBranch, manualBranch. now rewrite !length_map.
Qed.

Hypothesis total : forall s t, localeCompare s t <= 0 \/ localeCompare t s <= 0.
Hypothesis trans :
  forall s t u, localeCompare s t <= 0 -> localeCompare t u <= 0 -> localeCompare s u <= 0.

Lemma reconcile_sorted (out : list Project.t) :
  reconcile localeCompare config repos account = Ok out ->
  StronglySorted (fun a b => byOrderZ localeCompare (Config.getOrder config) a b <= 0) out.
Proof.
  pose proof (branches_named config account repos config_normalized) as Hn.
  unfold reconcile, GitHubAPI.mergeWithConfig. cbv zeta.
  fold (survivors config repos).
  fold (autoBranch config account repos).
  fold (manualBranch config account).
  destruct (0 <? Z.of_nat (List.length (Config.getOrder config))) eqn:E.
  - apply (sort_sorted _ _ _ (byOrder_agrees localeCompare _)); auto.
    + apply byOrderZ_total, total.
    + intros x y z. now apply byOrderZ_trans.
  - rewrite (order_length_zero E).
    apply (sort_sorted _ _ _ (byName_agrees localeCompare)); auto.
    + apply byOrderZ_total, total.
    + intros x y z. now apply byOrderZ_trans.
Qed.
End Merge.

(** ** The sample collation is a consistent comparison *)

Lemma lexCompare_total (k1 k2 : list N) :
  Collation.lexCompare k1 k2 <= 0 \/ Collation.lexCompare k2 k1 <= 0.
Proof.
  revert k2. induction k1 as [|a k1 IH]; intros [|b k2]; simpl; try lia.
  destruct (N.ltb_spec a b), (N.ltb_spec b a); try lia. apply IH.
Qed.

Lemma lexCompare_trans (k1 k2 k3 : list N) :
  Collation.lexCompare k1 k2 <= 0 -> Collation.lexCompare k2 k3 <= 0 ->
  Collation.lexCompare k1 k3 <= 0.
Proof.
  revert k2 k3. induction k1 as [|a k1 IH]; intros [|b k2] [|c k3]; simpl; try lia.
  destruct (N.ltb_spec a b), (N.ltb_spec b a), (N.ltb_spec b c), (N.ltb_spec c b),
    (N.ltb_spec a c), (N.ltb_spec c a); try lia.
  apply IH.
Qed.

Lemma caseless_total (s t : string) :
  Collation.caseless s t <= 0 \/ Collation.caseless t s <= 0.
Proof. apply lexCompare_total. Qed.

Lemma caseless_trans (s t u : string) :
  Collation.caseless s t <= 0 -> Collation.caseless t u <= 0 -> Collation.caseless s u <= 0.
Proof. apply lexCompare_trans. Qed.

(** ** [getProjects] around the reconciler *)

Lemma getProjects_reconcile (localeCompare : string -> string -> Z)
    (config : Config.state) (w : Net.World) (repos : list Repo.t) (profile : Net.json) :
  GitHubAPI.fetchUserRepos w (Config.getUsername config) = Ok (Net.Repos repos) ->
  GitHubAPI.fetchUserProfile w (Config.getUsername config) = Ok profile ->
  GitHubAPI.getProjects localeCompare config w
  = (projects <- reconcile localeCompare config repos (Config.getUsername config) ;;
     Ok (projects, GitHubAPI.profileOf profile)).
Proof.
  intros Hrepos Hprofile. unfold GitHubAPI.getProjects. cbv zeta.
  rewrite Hrepos, Hprofile. reflexivity.
Qed.

Lemma getProjects_rejects (localeCompare : string -> string -> Z)
    (config : Config.state) (w : Net.World) (e : exn) :
  GitHubAPI.fetchUserRepos w (Config.getUsername config) = Throw e ->
  GitHubAPI.getProjects localeCompare config w = Throw e.
Proof.
  intros Hrepos. unfold GitHubAPI.getProjects. cbv zeta. now rewrite Hrepos.
Qed.

Lemma getUsername_loaded (jsyaml_load : string -> result Yaml.doc) (w : Net.World) :
  exists s, Config.getUsername (loaded jsyaml_load w) = JStr s.
Proof.
  unfold loaded, Config.load.
  destruct (Config.tryLoad jsyaml_load w); simpl; apply js_or_string.
Qed.

(** ** How many projects the merge returns *)

Lemma getManualProjects_nonnull (config : Config.state) :
  Forall normalized (Config.getProjects config) ->
  Config.getManualProjects config
  = filter (fun p => negb (strict_eq (Entry.url p) JNull)) (Config.getProjects config).
Proof.
  intros Hn. unfold Config.getManualProjects. apply filter_ext_in.
  intros e He. rewrite Forall_forall in Hn.
  destruct (normalized_url e (Hn e He)) as [H | H].
  - rewrite H. reflexivity.
  - rewrite H. destruct (Entry.url e); simpl in *; congruence.
Qed.

(** C1, as written, fails: the entry [{repo: "x", description: "custom"}]
    overrides the pages-enabled repository [x] and has no url; one
    repository passes the filters and there is one manual entry, yet the
    merge returns one project, not two. *)
Lemma C1_counterexample :
  ~ countAsSpecified Collation.caseless
      (Sample.configOf [Sample.overrideOnly] []) [Sample.repo "x" true] (JStr "alice").
Proof.
  intros [out [Hout Hlen]].
  vm_compute in Hout. injection Hout as <-.
  vm_compute in Hlen. discriminate.
Qed.

(** C1, amended: after [load], for every list of repositories and every
    account, the merge returns, and the number of projects is the number of
    repositories that pass the pages and exclusion filters plus the number
    of manual entries whose [url] is not null; an entry without a url is not
    materialized by the manual branch at all, so an override without a url
    shows only through the override of its repository. *)
Theorem C1_count_of_projects
    (localeCompare : string -> string -> Z)
    (jsyaml_load : string -> result Yaml.doc) (w : Net.World)
    (repos : list Repo.t) (account : jsval) :
  let config := loaded jsyaml_load w in
  exists out,
    reconcile localeCompare config repos account = Ok out
    /\ List.length out
       = (List.length (survivors config repos)
          + List.length
              (filter (fun p => negb (strict_eq (Entry.url p) JNull))
                 (Config.getProjects config)))%nat
    /\ manualBranch config account
       = map (GitHubAPI.manualProject account)
           (filter (fun p => negb (strict_eq (Entry.url p) JNull))
              (Config.getProjects config))
    /\ forall e, Entry.url e = JNull -> ~ In e (Config.getManualProjects config).
Proof.
  intros config.
  pose proof (loaded_normalized jsyaml_load w) as Hn. fold config in Hn.
  destruct (reconcile_branches localeCompare config repos account Hn) as [out [Hout Hp]].
  exists out. split; [exact Hout|]. split; [|split].
  - rewrite <- (getManualProjects_nonnull config Hn).
    exact (reconcile_length localeCompare config repos account Hn out Hout).
  - unfold manualBranch. now rewrite (getManualProjects_nonnull config Hn).
  - intros e Hnull Hin. unfold Config.getManualProjects in Hin.
    apply filter_In in Hin as [_ Ht]. rewrite Hnull in Ht. discriminate.
Qed.

Lemma C1_count_of_projects_witness :
  exists out,
    reconcile Collation.caseless (Sample.configOf [Sample.overrideOnly; Sample.redirected] [])
      [Sample.repo "x" true; Sample.repo "y" false] (JStr "alice") = Ok out
    /\ List.length out = 2%nat.
Proof.
  destruct (C1_count_of_projects Collation.caseless
              (Sample.parsesTo
                 (Yaml.mk (JStr "alice") None (Some [])
                    (Yaml.Items (map Some [Sample.overrideOnly; Sample.redirected]))))
              Sample.world [Sample.repo "x" true; Sample.repo "y" false] (JStr "alice"))
    as [out [Hout [Hlen _]]].
  exists out. split; [exact Hout | exact Hlen].
Defined.

(** ** The repository link of a manual project *)

(** After normalization the merge copies [repoUrl] from the entry: the
    branch that builds a link is never taken. *)
Lemma manualProject_repoUrl (account : jsval) (e : Entry.t) :
  normalized e ->
  Project.repoUrl (GitHubAPI.manualProject account e) = Entry.repoUrl e.
Proof.
  intros Hn. apply normalized_repoUrl in Hn. simpl.
  destruct (Entry.repoUrl e); simpl; congruence.
Qed.

Lemma normalizeProject_repoUrl_undefined (raw e : Entry.t) :
  Config.normalizeProject (Some raw) = Ok e ->
  Entry.repoUrl raw = JUndefined -> Entry.repoUrl e = JNull.
Proof. intros [= <-] H. simpl. now rewrite H. Qed.

(** C2 at [{repo: "proj1", url: "https://example.com/proj1"}], account
    [alice]: the entry names a repository and declares no [repoUrl]; the
    project the merge builds from it has [repoUrl = null], not
    [https://github.com/alice/proj1].  So it is for every entry that
    declares no [repoUrl], whatever its [repo]. *)
Theorem C2_undeclared_repoUrl_is_null (localeCompare : string -> string -> Z) :
  reconcile localeCompare (Sample.configOf [Sample.redirected] []) [] (JStr "alice")
  = Ok [ {| Project.name := JStr "proj1";
            Project.description := JStr "";
            Project.url := JStr "https://example.com/proj1";
            Project.repoUrl := JNull;
            Project.thumbnail := JNull;
            Project.isAutoDiscovered := false |} ]
  /\ forall (account : jsval) (raw e : Entry.t),
       Config.normalizeProject (Some raw) = Ok e ->
       Entry.repoUrl raw = JUndefined ->
       Project.repoUrl (GitHubAPI.manualProject account e) = JNull.
Proof.
  split; [reflexivity|].
  intros account raw e Hn Hundef.
  rewrite manualProject_repoUrl by now exists raw.
  now apply normalizeProject_repoUrl_undefined with raw.
Qed.

(** C3 at [{repo: "proj1", repoUrl: null}], account [alice]: the fallback
    builds the project with [repoUrl = "https://github.com/alice/proj1"],
    although the entry sets [repoUrl] to null.  So it is for every entry
    that sets [repoUrl] to null and names a repository. *)
Theorem C3_fallback_replaces_explicit_null (localeCompare : string -> string -> Z) :
  reconcileManualOnly localeCompare (Sample.configOf [Sample.noRepoLink] [])
  = Ok [ {| Project.name := JStr "proj1";
            Project.description := JStr "";
            Project.url := JStr "https://alice.github.io/proj1/";
            Project.repoUrl := JStr "https://github.com/alice/proj1";
            Project.thumbnail := JNull;
            Project.isAutoDiscovered := false |} ]
  /\ forall (account : jsval) (raw e : Entry.t) (n : string),
       Config.normalizeProject (Some raw) = Ok e ->
       Entry.repoUrl raw = JNull ->
       Entry.repo raw = JStr n -> n <> ""%string ->
       Project.repoUrl (GitHubAPI.fallbackProject account e)
       = JStr ("https://github.com/" ++ toStr account ++ "/" ++ n).
Proof.
  split; [reflexivity|].
  intros account raw e n [= <-] Hnull Hrepo Hne.
  assert (truthy (JStr n) = true) as Ht.
  { simpl. apply negb_true_iff. now apply String.eqb_neq. }
  simpl. rewrite Hnull, Hrepo. simpl strict_eq. cbv iota. simpl negb. cbv iota.
  rewrite (js_or_truthy_l (JStr n)) by exact Ht.
  now rewrite Ht.
Qed.

(** The merge, for its part, keeps an explicit null. *)
Lemma manualProject_keeps_explicit_null (account : jsval) (raw e : Entry.t) :
  Config.normalizeProject (Some raw) = Ok e ->
  Entry.repoUrl raw = JNull ->
  Project.repoUrl (GitHubAPI.manualProject account e) = JNull.
Proof.
  intros Hn Hnull. rewrite manualProject_repoUrl by now exists raw.
  injection Hn as <-. simpl. now rewrite Hnull.
Qed.

(** ** Which repositories reach the output *)

Lemma filterPagesEnabled_In (repos : list Repo.t) (r : Repo.t) :
  In r (GitHubAPI.filterPagesEnabled repos) <-> In r repos /\ Repo.has_pages r = true.
Proof. unfold GitHubAPI.filterPagesEnabled. apply filter_In. Qed.

Lemma filterPagesEnabled_drops (l1 l2 : list Repo.t) (r : Repo.t) :
  Repo.has_pages r = false ->
  GitHubAPI.filterPagesEnabled (l1 ++ r :: l2) = GitHubAPI.filterPagesEnabled (l1 ++ l2).
Proof.
  intros H. unfold GitHubAPI.filterPagesEnabled.
  rewrite !filter_app. simpl. now rewrite H.
Qed.

Lemma survivors_In (config : Config.state) (repos : list Repo.t) (r : Repo.t) :
  In r (survivors config repos)
  <-> In r repos /\ Repo.has_pages r = true /\ GitHubAPI.keptByConfig config r = true.
Proof.
  unfold survivors. rewrite filter_In, filterPagesEnabled_In. tauto.
Qed.

(** C4: a repository with [has_pages = false] never produces a project.
    After [load], for every account: such a repository is not among those
    the merge transforms; the result is the same with the repository taken
    out of the input; and every auto-discovered project of the output is the
    transform of a repository of the input that has pages enabled. *)
Theorem C4_pages_disabled_never_appears
    (localeCompare : string -> string -> Z)
    (jsyaml_load : string -> result Yaml.doc) (w : Net.World)
    (l1 l2 : list Repo.t) (r : Repo.t) (account : jsval) :
  Repo.has_pages r = false ->
  let config := loaded jsyaml_load w in
  let repos := l1 ++ r :: l2 in
  ~ In r (survivors config repos)
  /\ reconcile localeCompare config repos account
     = reconcile localeCompare config (l1 ++ l2) account
  /\ exists out,
       reconcile localeCompare config repos account = Ok out
       /\ forall p, In p out -> Project.isAutoDiscovered p = true ->
            exists r', In r' repos /\ Repo.has_pages r' = true
                       /\ p = GitHubAPI.withOverride config account r'.
Proof.
  intros Hr config repos.
  pose proof (loaded_normalized jsyaml_load w) as Hn. fold config in Hn.
  split; [|split].
  - intros Hin. apply survivors_In in Hin as [_ [Hp _]]. congruence.
  - unfold reconcile, repos. now rewrite filterPagesEnabled_drops.
  - destruct (reconcile_branches localeCompare config repos account Hn) as [out [Hout Hp]].
    exists out. split; [exact Hout|].
    intros p Hin Hauto.
    apply (Permutation_in _ (Permutation_sym Hp)) in Hin.
    apply in_app_or in Hin as [Hin | Hin].
    + apply in_map_iff in Hin as [r' [<- Hr']].
      apply survivors_In in Hr' as [Hr1 [Hr2 _]].
      exists r'. auto.
    + apply in_map_iff in Hin as [e [<- _]]. simpl in Hauto. discriminate.
Qed.

Lemma C4_pages_disabled_never_appears_witness :
  ~ In (Sample.repo "draft" false)
      (survivors (Sample.configOf [Sample.overrideOnly] [])
         ([Sample.repo "x" true] ++ Sample.repo "draft" false :: [Sample.repo "y" true]))
  /\ reconcile Collation.caseless (Sample.configOf [Sample.overrideOnly] [])
       ([Sample.repo "x" true] ++ Sample.repo "draft" false :: [Sample.repo "y" true])
       (JStr "alice")
     = reconcile Collation.caseless (Sample.configOf [Sample.overrideOnly] [])
         ([Sample.repo "x" true] ++ [Sample.repo "y" true]) (JStr "alice").
Proof.
  destruct (C4_pages_disabled_never_appears Collation.caseless
              (Sample.parsesTo
                 (Yaml.mk (JStr "alice") None (Some [])
                    (Yaml.Items (map Some [Sample.overrideOnly]))))
              Sample.world [Sample.repo "x" true] [Sample.repo "y" true]
              (Sample.repo "draft" false) (JStr "alice") eq_refl)
    as [Hnot [Heq _]].
  split; [exact Hnot | exact Heq].
Defined.

(** The names [getReposWithCustomUrls] returns, after [load]. *)
Lemma getReposWithCustomUrls_In (config : Config.state) (n : string) :
  Forall normalized (Config.getProjects config) ->
  (In (JStr n) (Config.getReposWithCustomUrls config)
   <-> exists e, In e (Config.getProjects config)
                 /\ Entry.repo e = JStr n /\ Entry.url e <> JNull).
Proof.
  intros Hn. rewrite Forall_forall in Hn.
  unfold Config.getReposWithCustomUrls. rewrite in_map_iff. split.
  - intros [e [Hrepo Hin]]. apply filter_In in Hin as [Hin Ht].
    apply andb_true_iff in Ht as [Hu _].
    exists e. repeat split; auto. intros Hnull. rewrite Hnull in Hu. discriminate.
  - intros [e [Hin [Hrepo Hurl]]]. exists e. split; [exact Hrepo|].
    apply filter_In. split; [exact Hin|].
    apply andb_true_iff. split.
    + now apply normalized_url_truthy; [apply Hn|].
    + destruct (normalized_repo e (Hn e Hin)) as [H | H]; [congruence | exact H].
Qed.

Lemma keptByConfig_true (config : Config.state) (r : Repo.t) :
  Forall normalized (Config.getProjects config) ->
  (GitHubAPI.keptByConfig config r = true
   <-> ~ In (JStr (Repo.name r)) (Config.getExcluded config)
       /\ ~ exists e, In e (Config.getProjects config)
                      /\ Entry.repo e = JStr (Repo.name r) /\ Entry.url e <> JNull).
Proof.
  intros Hn. unfold GitHubAPI.keptByConfig.
  rewrite andb_true_iff, !negb_true_iff.
  rewrite <- (getReposWithCustomUrls_In config (Repo.name r) Hn).
  rewrite <- !includes_In.
  destruct (includes (Config.getExcluded config) (JStr (Repo.name r)));
    destruct (includes (Config.getReposWithCustomUrls config) (JStr (Repo.name r)));
    split; intros [H1 H2]; split; congruence.
Qed.

(** What [load] stores for a document it could read: the lists of the
    document. *)
Lemma load_of_document
    (jsyaml_load : string -> result Yaml.doc) (w : Net.World)
    (response : Net.response) (yamlText : string) (m : Yaml.mapping)
    (raws : list Entry.t) :
  Net.fetch w "projects.yaml" = Ok response ->
  Net.ok response = true ->
  Net.text response = Ok yamlText ->
  jsyaml_load yamlText = Ok (Yaml.Mapping m) ->
  Yaml.projects m = Yaml.Items (map Some raws) ->
  exists c,
    Config.load jsyaml_load None w = (c, Some c)
    /\ Config.exclude c = match Yaml.exclude m with Some l => l | None => [] end
    /\ Forall2 (fun raw e => Config.normalizeProject (Some raw) = Ok e) raws
         (Config.projects c).
Proof.
  intros Hfetch Hok Htext Hparse Hitems.
  assert (exists es,
            mapM Config.normalizeProject (map Some raws) = Ok es
            /\ Forall2 (fun raw e => Config.normalizeProject (Some raw) = Ok e) raws es)
    as [es [Hes Hall]].
  { clear. induction raws as [|raw raws [es [Hes Hall]]]; simpl.
    - exists []. split; [reflexivity | constructor].
    - rewrite Hes. simpl. eexists. split; [reflexivity|].
      constructor; [reflexivity | exact Hall]. }
  unfold Config.load, Config.tryLoad.
  rewrite Hfetch. simpl. rewrite Hok. simpl. rewrite Htext. simpl. rewrite Hparse. simpl.
  rewrite Hitems, Hes. simpl. eexists. split; [reflexivity|]. split; [reflexivity|].
  exact Hall.
Qed.

(** C5: let [c] be the configuration [load] stores.  The auto-discovered
    branch is the transform of exactly the pages-enabled repositories whose
    name is neither in the [exclude] list of [c] nor the [repo] of an entry
    of [c] whose [url] is not null; so a repository named in that list is
    not in the branch, whatever the entries say, overrides included, and
    every auto-discovered project of the output comes from a repository
    whose name is not in the list.  When [projects.yaml] was read, the list
    is the [exclude] of the document.  The output is the branch and the
    manual branch, reordered. *)
Theorem C5_auto_branch_retains
    (localeCompare : string -> string -> Z)
    (jsyaml_load : string -> result Yaml.doc) (w : Net.World)
    (repos : list Repo.t) (account : jsval) :
  let c := fst (Config.load jsyaml_load None w) in
  let config := loaded jsyaml_load w in
  config = Some c
  /\ (forall r,
        In r (survivors config repos)
        <-> In r repos /\ Repo.has_pages r = true
            /\ ~ In (JStr (Repo.name r)) (Config.exclude c)
            /\ ~ exists e, In e (Config.projects c)
                           /\ Entry.repo e = JStr (Repo.name r) /\ Entry.url e <> JNull)
  /\ (forall r, In (JStr (Repo.name r)) (Config.exclude c) ->
        ~ In r (survivors config repos))
  /\ (forall out, reconcile localeCompare config repos account = Ok out ->
        forall p, In p out -> Project.isAutoDiscovered p = true ->
          exists r', In r' repos
                     /\ ~ In (JStr (Repo.name r')) (Config.exclude c)
                     /\ p = GitHubAPI.withOverride config account r')
  /\ (forall response yamlText m raws excluded,
        Net.fetch w "projects.yaml" = Ok response ->
        Net.ok response = true ->
        Net.text response = Ok yamlText ->
        jsyaml_load yamlText = Ok (Yaml.Mapping m) ->
        Yaml.projects m = Yaml.Items (map Some raws) ->
        Yaml.exclude m = Some excluded ->
        Config.exclude c = excluded
        /\ forall r, In (JStr (Repo.name r)) excluded -> ~ In r (survivors config repos))
  /\ exists out,
       reconcile localeCompare config repos account = Ok out
       /\ Permutation
            (map (GitHubAPI.withOverride config account) (survivors config repos)
             ++ manualBranch config account) out.
Proof.
  intros c config.
  pose proof (loaded_normalized jsyaml_load w) as Hn. fold config in Hn.
  assert (config = Some c) as Hc by apply load_memoizes.
  assert (forall r,
     In r (survivors config repos)
     <-> In r repos /\ Repo.has_pages r = true
         /\ ~ In (JStr (Repo.name r)) (Config.exclude c)
         /\ ~ exists e, In e (Config.projects c)
                        /\ Entry.repo e = JStr (Repo.name r) /\ Entry.url e <> JNull) as Hiff.
  { intros r. rewrite survivors_In, (keptByConfig_true config r Hn).
    rewrite Hc. simpl. tauto. }
  split; [exact Hc|]. split; [exact Hiff|]. split; [|split; [|split]].
  - intros r Hex Hin. apply Hiff in Hin. tauto.
  - intros out Hout p Hin Hauto.
    destruct (reconcile_branches localeCompare config repos account Hn) as [out' [Hout' Hp]].
    rewrite Hout in Hout'. injection Hout' as <-.
    apply (Permutation_in _ (Permutation_sym Hp)) in Hin.
    apply in_app_or in Hin as [Hin | Hin].
    + apply in_map_iff in Hin as [r' [<- Hr']]. exists r'.
      apply Hiff in Hr'. repeat split; tauto.
    + apply in_map_iff in Hin as [e [<- _]]. simpl in Hauto. discriminate.
  - intros response yamlText m raws excluded Hfetch Hok Htext Hparse Hitems Hex.
    destruct (load_of_document jsyaml_load w response yamlText m raws
                Hfetch Hok Htext Hparse Hitems) as [c' [Hload [Hexclude _]]].
    assert (c = c') as <- by (unfold c; now rewrite Hload).
    rewrite Hex in Hexclude. split; [exact Hexclude|].
    intros r Hr Hin. apply Hiff in Hin. rewrite Hexclude in Hin. tauto.
  - exact (reconcile_branches localeCompare config repos account Hn).
Qed.

(** C5 at [exclude: [x]] with the override [{repo: "x", description:
    "custom"}]: [x] is dropped, [b] is kept. *)
Lemma C5_auto_branch_retains_witness :
  ~ In (Sample.repo "x" true)
      (survivors
         (loaded (Sample.parsesTo (Demo.document [JStr "x"] [Some Sample.overrideOnly]))
            Sample.world)
         [Sample.repo "x" true; Sample.repo "b" true])
  /\ In (Sample.repo "b" true)
       (survivors
          (loaded (Sample.parsesTo (Demo.document [JStr "x"] [Some Sample.overrideOnly]))
             Sample.world)
          [Sample.repo "x" true; Sample.repo "b" true]).
Proof.
  destruct (C5_auto_branch_retains Collation.caseless
              (Sample.parsesTo (Demo.document [JStr "x"] [Some Sample.overrideOnly]))
              Sample.world [Sample.repo "x" true; Sample.repo "b" true] (JStr "alice"))
    as [_ [Hiff [_ [_ [Hdoc _]]]]].
  split.
  - destruct (Hdoc _ _ _ [Sample.overrideOnly] [JStr "x"]
                eq_refl eq_refl eq_refl eq_refl eq_refl eq_refl) as [_ Hdrop].
    apply Hdrop. left; reflexivity.
  - apply Hiff. split; [right; left; reflexivity|]. split; [reflexivity|]. split.
    + intros [H | []]. discriminate.
    + intros [e [[<- | []] [_ Hurl]]]. apply Hurl. reflexivity.
Defined.

(** ** A repository redirected to the manual branch *)

Lemma filter_none {A : Type} (f : A -> bool) (l : list A) :
  (forall x, In x l -> f x = false) -> filter f l = [].
Proof.
  induction l as [|a l IH]; intros H; simpl; [reflexivity|].
  rewrite (H a (or_introl eq_refl)). apply IH. intros x Hx. apply H. now right.
Qed.

Lemma filter_split_perm {A : Type} (f : A -> bool) (l : list A) :
  Permutation l (filter f l ++ filter (fun x => negb (f x)) l).
Proof.
  induction l as [|a l IH]; simpl; [constructor|].
  destruct (f a); simpl.
  - now apply perm_skip.
  - now apply Permutation_cons_app.
Qed.

Lemma contributed_others (config : Config.state) (account : jsval)
    (repos : list Repo.t) (n : string) :
  Permutation
    (autoBranch config account repos ++ manualBranch config account)
    (contributed config account repos n ++ others config account repos n).
Proof.
  unfold autoBranch, manualBranch, contributed, others.
  set (g := GitHubAPI.withOverride config account).
  set (m := GitHubAPI.manualProject account).
  set (S := survivors config repos).
  set (M := Config.getManualProjects config).
  eapply perm_trans.
  - apply Permutation_app; apply Permutation_map; apply filter_split_perm.
  - rewrite !map_app.
    rewrite <- !app_assoc. apply Permutation_app_head.
    rewrite !app_assoc. apply Permutation_app_tail.
    apply Permutation_app_comm.
Qed.

(** C6, as written, fails: with the entries
    [{repo: "proj1", url: "https://example.com/proj1"}] and
    [{repo: "proj1", url: "https://mirror.example.com/"}] the repository
    [proj1] gives two projects, not one. *)
Lemma C6_counterexample :
  ~ onceAsSpecified (Sample.configOf [Sample.redirected; Sample.redirectedAgain] [])
      (JStr "alice") [Sample.repo "proj1" true].
Proof.
  intros H.
  destruct (H (Sample.repo "proj1" true)
              (Entry.mk (JStr "proj1") (JStr "proj1") JNull
                 (JStr "https://example.com/proj1") JNull JNull JNull)) as [_ Hc].
  - left; reflexivity.
  - reflexivity.
  - left; reflexivity.
  - reflexivity.
  - discriminate.
  - vm_compute in Hc. discriminate.
Qed.

(** C6, amended: after [load], a pages-enabled repository named by an
    entry with a [url] that is not null is dropped from the auto-discovered
    branch; the projects it gives rise to are those the manual branch builds
    from the entries that name it and have a url, one for each such entry, each
    with the [url] of its entry and [isAutoDiscovered = false]; the entry
    at hand is one of them; there is exactly one project when there is
    exactly one such entry; and the output is these projects and those of
    the other repositories and entries, reordered. *)
Theorem C6_redirected_repository
    (localeCompare : string -> string -> Z)
    (jsyaml_load : string -> result Yaml.doc) (w : Net.World)
    (repos : list Repo.t) (account : jsval) (r : Repo.t) (e : Entry.t) :
  let config := loaded jsyaml_load w in
  let matching :=
    filter (fun p => namesRepo (Repo.name r) p && negb (strict_eq (Entry.url p) JNull))
      (Config.getProjects config) in
  In r repos -> Repo.has_pages r = true ->
  In e (Config.getProjects config) ->
  Entry.repo e = JStr (Repo.name r) -> Entry.url e <> JNull ->
  ~ In r (survivors config repos)
  /\ contributed config account repos (Repo.name r)
     = map (GitHubAPI.manualProject account) matching
  /\ In e matching
  /\ (forall p, Project.url (GitHubAPI.manualProject account p) = Entry.url p
                /\ Project.isAutoDiscovered (GitHubAPI.manualProject account p) = false)
  /\ (matching = [e] ->
      contributed config account repos (Repo.name r) = [GitHubAPI.manualProject account e])
  /\ exists out,
       reconcile localeCompare config repos account = Ok out
       /\ Permutation
            (contributed config account repos (Repo.name r)
             ++ others config account repos (Repo.name r)) out.
Proof.
  intros config matching Hr Hpages He Hrepo Hurl.
  pose proof (loaded_normalized jsyaml_load w) as Hn. fold config in Hn.
  assert (In (JStr (Repo.name r)) (Config.getReposWithCustomUrls config)) as Hcustom.
  { apply getReposWithCustomUrls_In; [exact Hn|]. exists e. auto. }
  assert (contributed config account repos (Repo.name r)
          = map (GitHubAPI.manualProject account) matching) as Hcontrib.
  { unfold contributed.
    rewrite filter_none.
    - simpl. f_equal. rewrite (getManualProjects_nonnull config Hn).
      unfold matching. clear. induction (Config.getProjects config) as [|p l IH]; simpl.
      + reflexivity.
      + destruct (strict_eq (Entry.url p) JNull); simpl;
          destruct (namesRepo (Repo.name r) p); simpl; now rewrite IH.
    - intros r' Hr'. apply survivors_In in Hr' as [_ [_ Hk]].
      unfold hasName. destruct (String.eqb_spec (Repo.name r') (Repo.name r)) as [Heq|]; auto.
      unfold GitHubAPI.keptByConfig in Hk. apply andb_true_iff in Hk as [_ Hk].
      rewrite Heq, (proj2 (includes_In _ _) Hcustom) in Hk. discriminate. }
  split; [|split; [exact Hcontrib | split; [|split; [|split]]]].
  - intros Hin. apply survivors_In in Hin as [_ [_ Hk]].
    unfold GitHubAPI.keptByConfig in Hk. apply andb_true_iff in Hk as [_ Hk].
    rewrite (proj2 (includes_In _ _) Hcustom) in Hk. discriminate.
  - unfold matching. apply filter_In. split; [exact He|].
    apply andb_true_iff. split.
    + unfold namesRepo. now apply strict_eq_true.
    + apply negb_true_iff. destruct (strict_eq (Entry.url e) JNull) eqn:E; auto.
      apply strict_eq_true in E. contradiction.
  - intros p. split; reflexivity.
  - intros Hone. now rewrite Hcontrib, Hone.
  - destruct (reconcile_branches localeCompare config repos account Hn) as [out [Hout Hp]].
    exists out. split; [exact Hout|].
    eapply perm_trans; [|exact Hp].
    apply Permutation_sym, contributed_others.
Qed.

Lemma C6_redirected_repository_witness :
  contributed (Sample.configOf [Sample.redirected; Sample.overrideOnly] []) (JStr "alice")
    [Sample.repo "proj1" true; Sample.repo "x" true] "proj1"
  = [ {| Project.name := JStr "proj1";
         Project.description := JStr "";
         Project.url := JStr "https://example.com/proj1";
         Project.repoUrl := JNull;
         Project.thumbnail := JNull;
         Project.isAutoDiscovered := false |} ].
Proof.
  destruct (C6_redirected_repository Collation.caseless
              (Sample.parsesTo
                 (Yaml.mk (JStr "alice") None (Some [])
                    (Yaml.Items (map Some [Sample.redirected; Sample.overrideOnly]))))
              Sample.world [Sample.repo "proj1" true; Sample.repo "x" true] (JStr "alice")
              (Sample.repo "proj1" true)
              (Entry.mk (JStr "proj1") (JStr "proj1") JNull
                 (JStr "https://example.com/proj1") JNull JNull JNull))
    as [_ [_ [_ [_ [Hone _]]]]].
  - left; reflexivity.
  - reflexivity.
  - left; reflexivity.
  - reflexivity.
  - discriminate.
  - exact (Hone eq_refl).
Defined.

(** ** The order of the output *)

Lemma StronglySorted_impl {A : Type} (R Q : A -> A -> Prop) (l : list A) :
  (forall x y, R x y -> Q x y) -> StronglySorted R l -> StronglySorted Q l.
Proof.
  intros HRQ. induction 1 as [|a l Hs IH Hall]; constructor; [exact IH|].
  eapply Forall_impl; [|exact Hall]. intros b. apply HRQ.
Qed.

(** C7: for a [localeCompare] that is a consistent comparison, after
    [load] the merge returns a list in which every project stands before
    every later one in the three-tier order: by index in [order] when both
    names are listed, a listed name before an unlisted one, by
    [localeCompare] of the names when neither is listed; with an empty
    [order] the list is ordered by [localeCompare] of the names alone.
    Every name in the output is a string. *)
Theorem C7_output_is_ordered
    (localeCompare : string -> string -> Z)
    (total : forall s t, localeCompare s t <= 0 \/ localeCompare t s <= 0)
    (trans : forall s t u,
        localeCompare s t <= 0 -> localeCompare t u <= 0 -> localeCompare s u <= 0)
    (jsyaml_load : string -> result Yaml.doc) (w : Net.World)
    (repos : list Repo.t) (account : jsval) :
  let config := loaded jsyaml_load w in
  exists out,
    reconcile localeCompare config repos account = Ok out
    /\ StronglySorted (precedes localeCompare (Config.getOrder config)) out
    /\ (Config.getOrder config = [] ->
        StronglySorted
          (fun a b => localeCompare (toStr (Project.name a)) (toStr (Project.name b)) <= 0)
          out)
    /\ Forall namedByString out.
Proof.
  intros config.
  pose proof (loaded_normalized jsyaml_load w) as Hn. fold config in Hn.
  destruct (reconcile_branches localeCompare config repos account Hn) as [out [Hout Hp]].
  pose proof (reconcile_sorted localeCompare config repos account Hn total trans out Hout)
    as Hsorted.
  exists out. split; [exact Hout|]. split; [|split].
  - eapply StronglySorted_impl; [|exact Hsorted].
    intros a b. apply byOrderZ_precedes.
  - intros Hempty. rewrite Hempty in Hsorted.
    eapply StronglySorted_impl; [|exact Hsorted].
    intros a b H. exact H.
  - pose proof (branches_named config account repos Hn) as Hnamed.
    rewrite Forall_forall in *. intros p Hin. apply Hnamed.
    eapply Permutation_in; [apply Permutation_sym; exact Hp | exact Hin].
Qed.

Lemma C7_output_is_ordered_witness :
  exists out,
    reconcile Collation.caseless (Sample.configOf [Sample.redirected] [JStr "b"; JStr "a"])
      [Sample.repo "a" true; Sample.repo "b" true; Sample.repo "c" true] (JStr "alice")
    = Ok out
    /\ map Project.name out = [JStr "b"; JStr "a"; JStr "c"; JStr "proj1"]
    /\ StronglySorted (precedes Collation.caseless [JStr "b"; JStr "a"]) out.
Proof.
  destruct (C7_output_is_ordered Collation.caseless caseless_total caseless_trans
              (Sample.parsesTo
                 (Yaml.mk (JStr "alice") None (Some [JStr "b"; JStr "a"])
                    (Yaml.Items (map Some [Sample.redirected]))))
              Sample.world
              [Sample.repo "a" true; Sample.repo "b" true; Sample.repo "c" true]
              (JStr "alice"))
    as [out [Hout [Hsorted _]]].
  exists out. split; [exact Hout|]. split; [|exact Hsorted].
  vm_compute in Hout. injection Hout as <-. reflexivity.
Defined.

(** ** The fallback *)

Lemma fallback_branches (localeCompare : string -> string -> Z) (config : Config.state) :
  exists out,
    reconcileManualOnly localeCompare config = Ok out
    /\ Permutation
         (map (GitHubAPI.fallbackProject (Config.getUsername config))
            (Config.getProjects config)) out.
Proof.
  unfold reconcileManualOnly, GitHubAPI.getManualProjectsOnly. cbv zeta.
  set (l := map (GitHubAPI.fallbackProject (Config.getUsername config))
              (Config.getProjects config)).
  assert (Forall namedByString l) as Hn.
  { apply Forall_forall. intros p Hp. apply in_map_iff in Hp as [e [<- _]].
    apply fallbackProject_named. }
  destruct (sort_perm _ _ _
              (byOrder_agrees localeCompare (Config.getOrder config)) l Hn)
    as [out [Hout Hp]].
  rewrite Hout. simpl. exists out. split; [reflexivity | exact Hp].
Qed.

(** C8: in the fallback, the entry [{repo: "proj1"}] with account [alice]
    yields the project with [url = "https://alice.github.io/proj1/"] and
    [repoUrl = "https://github.com/alice/proj1"]; an entry with neither
    [url] nor [repo] gets the url ["#"].  In general, for an entry without
    a url: the url is the pages address built from the account and [repo]
    when [repo] is a non-empty string, and ["#"] when there is no [repo];
    after [load] the fallback returns the projects of all the entries. *)
Theorem C8_fallback_urls (localeCompare : string -> string -> Z) :
  GitHubAPI.getManualProjectsOnly localeCompare (Sample.configOf [Sample.repoOnly] [])
  = Ok ([ {| Project.name := JStr "proj1";
             Project.description := JStr "";
             Project.url := JStr "https://alice.github.io/proj1/";
             Project.repoUrl := JStr "https://github.com/alice/proj1";
             Project.thumbnail := JNull;
             Project.isAutoDiscovered := false |} ],
        {| Profile.username := JStr "alice";
           Profile.avatarUrl := JStr "https://github.com/alice.png";
           Profile.profileUrl := JStr "https://github.com/alice" |})
  /\ (exists profile,
        GitHubAPI.getManualProjectsOnly localeCompare (Sample.configOf [Sample.nameOnly] [])
        = Ok ([ {| Project.name := JStr "Notes";
                   Project.description := JStr "";
                   Project.url := JStr "#";
                   Project.repoUrl := JNull;
                   Project.thumbnail := JNull;
                   Project.isAutoDiscovered := false |} ], profile))
  /\ (forall (account : jsval) (raw e : Entry.t),
        Config.normalizeProject (Some raw) = Ok e ->
        truthy (Entry.url raw) = false ->
        (truthy (Entry.repo raw) = false ->
         Project.url (GitHubAPI.fallbackProject account e) = JStr "#")
        /\ (forall n, Entry.repo raw = JStr n -> n <> ""%string ->
              Project.url (GitHubAPI.fallbackProject account e)
              = JStr ("https://" ++ toStr account ++ ".github.io/" ++ n ++ "/")
              /\ (Entry.repoUrl raw = JUndefined ->
                  Project.repoUrl (GitHubAPI.fallbackProject account e)
                  = JStr ("https://github.com/" ++ toStr account ++ "/" ++ n))))
  /\ (forall (jsyaml_load : string -> result Yaml.doc) (w : Net.World),
        let config := loaded jsyaml_load w in
        exists out,
          reconcileManualOnly localeCompare config = Ok out
          /\ Permutation
               (map (GitHubAPI.fallbackProject (Config.getUsername config))
                  (Config.getProjects config)) out).
Proof.
  split; [reflexivity|]. split; [eexists; reflexivity|]. split.
  - intros account raw e [= <-] Hurl. split.
    + intros Hrepo. simpl. rewrite !(js_or_falsy_l (Entry.url raw)) by exact Hurl.
      rewrite (js_or_falsy_l (Entry.repo raw)) by exact Hrepo. reflexivity.
    + intros n Hrepo Hne.
      assert (truthy (JStr n) = true) as Ht.
      { simpl. apply negb_true_iff. now apply String.eqb_neq. }
      simpl. rewrite !(js_or_falsy_l (Entry.url raw)) by exact Hurl.
      rewrite Hrepo, (js_or_truthy_l (JStr n)) by exact Ht.
      rewrite Ht. split; [reflexivity|].
      intros Hundef. rewrite Hundef. reflexivity.
  - intros jsyaml_load w config. apply fallback_branches.
Qed.

(** ** Loading the configuration *)

(** C9: [load] always resolves, to a configuration that it also stores.
    When no configuration is stored yet and the [try] block fails in any
    way (the request fails, the status is not a success, the body cannot
    be read, the text is not YAML, or normalization throws) the
    configuration is the built-in one: account ["darrenmcewan"], nothing
    excluded, no order, no manual entry.  [getUsername] gives the same
    account when nothing is loaded or the loaded [username] is
    empty. *)
Theorem C9_load_never_raises
    (jsyaml_load : string -> result Yaml.doc) (config : Config.state) (w : Net.World) :
  (exists c, Config.load jsyaml_load config w = (c, Some c))
  /\ (forall e, Config.tryLoad jsyaml_load w = Throw e ->
        Config.load jsyaml_load None w = (Config.defaults, Some Config.defaults))
  /\ (forall e, Net.fetch w "projects.yaml" = Throw e ->
        Config.load jsyaml_load None w = (Config.defaults, Some Config.defaults))
  /\ (forall response, Net.fetch w "projects.yaml" = Ok response ->
        Net.ok response = false
        \/ (exists e, Net.text response = Throw e)
        \/ (exists yamlText e,
              Net.text response = Ok yamlText /\ jsyaml_load yamlText = Throw e) ->
        Config.load jsyaml_load None w = (Config.defaults, Some Config.defaults))
  /\ Config.defaults
     = {| Config.username := JStr "darrenmcewan";
          Config.exclude := [];
          Config.order := [];
          Config.projects := [] |}
  /\ Config.getUsername None = JStr "darrenmcewan"
  /\ Config.getUsername (Some Config.defaults) = JStr "darrenmcewan"
  /\ (forall c, truthy (Config.username c) = false ->
        Config.getUsername (Some c) = JStr "darrenmcewan")
  /\ (forall c, Config.tryLoad jsyaml_load w = Ok c ->
        exists s, Config.username c = JStr s).
Proof.
  assert (forall e, Config.tryLoad jsyaml_load w = Throw e ->
            Config.load jsyaml_load None w = (Config.defaults, Some Config.defaults))
    as Hcatch.
  { intros e He. unfold Config.load. now rewrite He. }
  split; [|split; [exact Hcatch | split; [|split; [|repeat split]]]].
  - unfold Config.load. destruct config as [c|].
    + now exists c.
    + destruct (Config.tryLoad jsyaml_load w) as [c|]; eexists; reflexivity.
  - intros e He. apply (Hcatch e). unfold Config.tryLoad. now rewrite He.
  - intros response Hresp Hfail.
    unfold Config.load, Config.tryLoad. rewrite Hresp. simpl.
    destruct Hfail as [Hok | [[e He] | [yamlText [e [Ht He]]]]].
    + now rewrite Hok.
    + destruct (Net.ok response); simpl; [now rewrite He | reflexivity].
    + destruct (Net.ok response); simpl; [|reflexivity].
      rewrite Ht. simpl. now rewrite He.
  - intros c Hc. simpl. now rewrite js_or_falsy_l.
  - intros c Hc. unfold Config.tryLoad in Hc.
    destruct (Net.fetch w "projects.yaml") as [response|]; [|discriminate]. simpl in Hc.
    destruct (Net.ok response); simpl in Hc; [|discriminate].
    destruct (Net.text response) as [yamlText|]; [|discriminate]. simpl in Hc.
    destruct (jsyaml_load yamlText) as [parsed|]; [|discriminate]. simpl in Hc.
    destruct (match Yaml.projects _ with
              | Yaml.Absent => _ | Yaml.Items _ => _ | Yaml.NotASequence => _ end);
      [|discriminate].
    simpl in Hc. injection Hc as <-. simpl. apply js_or_string.
Qed.

(** The failures of C9 on a network that is down. *)
Lemma C9_load_never_raises_witness :
  Config.load (Sample.parsesTo Yaml.empty) None Sample.offline
  = (Config.defaults, Some Config.defaults).
Proof.
  destruct (C9_load_never_raises (Sample.parsesTo Yaml.empty) None Sample.offline)
    as [_ [_ [Hfetch _]]].
  exact (Hfetch (TypeError "Failed to fetch") eq_refl).
Defined.

(** ** Overrides *)

Lemma find_first {A : Type} (f : A -> bool) (before after : list A) (x : A) :
  Forall (fun y => f y = false) before -> f x = true ->
  find f (before ++ x :: after) = Some x.
Proof.
  induction 1 as [|y before Hy _ IH]; intros Hx; simpl.
  - now rewrite Hx.
  - rewrite Hy. now apply IH.
Qed.

(** C10: when the entries are [before ++ e :: after], no entry of
    [before] names the repository and [e] does, the override of the
    repository is [e]: the project of the auto-discovered branch takes
    [name], [description], [url] and [thumbnail] from [e] where [e] has
    them and from the repository otherwise, and it is the same project
    whatever entries follow [e]. *)
Theorem C10_first_entry_overrides
    (config : Config.state) (account : jsval) (r : Repo.t)
    (before after : list Entry.t) (e : Entry.t) :
  Config.getProjects config = before ++ e :: after ->
  Forall (fun p => Entry.repo p <> JStr (Repo.name r)) before ->
  Entry.repo e = JStr (Repo.name r) ->
  Config.getProjectOverride config (Repo.name r) = Some e
  /\ GitHubAPI.withOverride config account r
     = (let project := GitHubAPI.transformRepo r account in
        {| Project.name := Entry.name e ||| Project.name project;
           Project.description := Entry.description e ||| Project.description project;
           Project.url := Entry.url e ||| Project.url project;
           Project.repoUrl := Project.repoUrl project;
           Project.thumbnail := Entry.thumbnail e ||| Project.thumbnail project;
           Project.isAutoDiscovered := true |})
  /\ forall config' after',
       Config.getProjects config' = before ++ e :: after' ->
       GitHubAPI.withOverride config' account r = GitHubAPI.withOverride config account r.
Proof.
  intros Hcfg Hbefore He.
  assert (forall c a, Config.getProjects c = before ++ e :: a ->
            Config.getProjectOverride c (Repo.name r) = Some e) as Hfind.
  { intros c a Hc. unfold Config.getProjectOverride. rewrite Hc.
    apply find_first.
    - eapply Forall_impl; [|exact Hbefore]. intros p Hp. simpl in Hp.
      destruct (strict_eq (Entry.repo p) (JStr (Repo.name r))) eqn:E; [|reflexivity].
      apply strict_eq_true in E. contradiction.
    - now apply strict_eq_true. }
  split; [now apply Hfind with after|]. split.
  - unfold GitHubAPI.withOverride. now rewrite (Hfind config after Hcfg).
  - intros config' after' Hcfg'. unfold GitHubAPI.withOverride.
    now rewrite (Hfind config after Hcfg), (Hfind config' after' Hcfg').
Qed.

Lemma C10_first_entry_overrides_witness :
  Config.getProjectOverride
    (Sample.configOf
       [Sample.redirected; Sample.overrideOnly;
        Entry.mk (JStr "x") (JStr "Later") JUndefined JUndefined JUndefined JUndefined JUndefined]
       [])
    "x"
  = Some (Entry.mk (JStr "x") (JStr "x") (JStr "custom") JNull JNull JNull JNull).
Proof.
  refine (proj1 (C10_first_entry_overrides
                   (Sample.configOf
                      [Sample.redirected; Sample.overrideOnly;
                       Entry.mk (JStr "x") (JStr "Later") JUndefined JUndefined JUndefined
                         JUndefined JUndefined]
                      [])
                   (JStr "alice") (Sample.repo "x" true)
                   [Entry.mk (JStr "proj1") (JStr "proj1") JNull
                      (JStr "https://example.com/proj1") JNull JNull JNull]
                   [Entry.mk (JStr "x") (JStr "Later") JNull JNull JNull JNull JNull]
                   (Entry.mk (JStr "x") (JStr "x") (JStr "custom") JNull JNull JNull JNull)
                   eq_refl _ eq_refl)).
  constructor; [discriminate | constructor].
Defined.

(* ------------------------------------------------------------------ *)
(** * Further properties of the code *)

(** ** [Config]: loading and normalizing *)

(** X1: once [load] has run, a later [load] returns the configuration of
    the first, whatever the network and the parser have become, and leaves
    the state as it is. *)
Theorem X1_load_is_memoized
    (jsyaml_load jsyaml_load' : string -> result Yaml.doc)
    (config : Config.state) (w w' : Net.World) :
  Config.load jsyaml_load' (snd (Config.load jsyaml_load config w)) w'
  = Config.load jsyaml_load config w.
Proof.
  rewrite (load_memoizes jsyaml_load w config). simpl.
  rewrite <- (load_memoizes jsyaml_load w config).
  now destruct (Config.load jsyaml_load config w).
Qed.

Lemma js_or_null_idem (a : jsval) : (a ||| JNull) ||| JNull = a ||| JNull.
Proof. unfold js_or. destruct (truthy a) eqn:E; [now rewrite E | reflexivity]. Qed.

(** X2: [normalizeProject] is idempotent: a normalized entry normalizes to
    itself. *)
Theorem X2_normalizeProject_idempotent (raw e : Entry.t) :
  Config.normalizeProject (Some raw) = Ok e ->
  Config.normalizeProject (Some e) = Ok e.
Proof.
  intros [= <-]. unfold Config.normalizeProject. simpl. f_equal.
  rewrite !js_or_null_idem.
  assert (truthy (Entry.name raw ||| Entry.repo raw ||| JStr "Untitled") = true) as Hname.
  { set (v := Entry.name raw ||| Entry.repo raw). unfold js_or.
    destruct (truthy v) eqn:E; [exact E | reflexivity]. }
  rewrite !(js_or_truthy_l _ _ Hname).
  destruct (Entry.repoUrl raw); reflexivity.
Qed.

Lemma X2_normalizeProject_idempotent_witness :
  Config.normalizeProject
    (Some (Entry.mk (JStr "x") (JStr "x") (JStr "custom") JNull JNull JNull JNull))
  = Ok (Entry.mk (JStr "x") (JStr "x") (JStr "custom") JNull JNull JNull JNull).
Proof.
  exact (X2_normalizeProject_idempotent Sample.overrideOnly _ eq_refl).
Defined.

(** X3: what a normalized entry looks like.  Its [name] is truthy: the raw
    [name] when that is truthy, else the raw [repo] when that is, else
    ["Untitled"].  Each of [repo], [description], [url], [thumbnail] and
    [order] is the raw value when that is truthy and [null] otherwise.
    [repoUrl] is the raw value unless the key was absent, so a falsy value
    such as the empty string is kept there, and it is never
    [undefined]. *)
Theorem X3_normalized_shape (raw : Entry.t) :
  exists e,
    Config.normalizeProject (Some raw) = Ok e
    /\ truthy (Entry.name e) = true
    /\ ((truthy (Entry.name raw) = true /\ Entry.name e = Entry.name raw)
        \/ (truthy (Entry.name raw) = false /\ truthy (Entry.repo raw) = true
            /\ Entry.name e = Entry.repo raw)
        \/ (truthy (Entry.name raw) = false /\ truthy (Entry.repo raw) = false
            /\ Entry.name e = JStr "Untitled"))
    /\ (forall field : Entry.t -> jsval,
          In field [Entry.repo; Entry.description; Entry.url; Entry.thumbnail; Entry.order] ->
          (truthy (field raw) = true /\ field e = field raw)
          \/ (truthy (field raw) = false /\ field e = JNull))
    /\ Entry.repoUrl e <> JUndefined
    /\ (Entry.repoUrl raw <> JUndefined -> Entry.repoUrl e = Entry.repoUrl raw).
Proof.
  eexists. split; [reflexivity|]. simpl. split; [|split; [|split; [|split]]].
  - set (v := Entry.name raw ||| Entry.repo raw). unfold js_or.
    destruct (truthy v) eqn:E; [exact E | reflexivity].
  - unfold js_or.
    destruct (truthy (Entry.name raw)) eqn:En; simpl.
    + rewrite En. now left.
    + destruct (truthy (Entry.repo raw)) eqn:Er.
      * right; left. auto.
      * right; right. auto.
  - intros field Hfield.
    assert (forall a, (truthy a = true /\ a ||| JNull = a)
                      \/ (truthy a = false /\ a ||| JNull = JNull)) as Hcases.
    { intros a. unfold js_or. destruct (truthy a); auto. }
    simpl in Hfield.
    destruct Hfield as [<- | [<- | [<- | [<- | [<- | []]]]]]; simpl; apply Hcases.
  - destruct (Entry.repoUrl raw); simpl; discriminate.
  - destruct (Entry.repoUrl raw); simpl; congruence.
Qed.

Lemma mapM_normalizeProject_null (items : list (option Entry.t)) :
  In None items -> exists e, mapM Config.normalizeProject items = Throw e.
Proof.
  induction items as [|i items IH]; intros Hin; [contradiction|].
  simpl. destruct i as [raw|].
  - destruct Hin as [Hin | Hin]; [discriminate|].
    destruct (IH Hin) as [e He]. simpl. rewrite He. now exists e.
  - simpl. now eexists.
Qed.

(** X4: one [null] item under [projects:], or a value there that is not a
    sequence, and [load] falls back to the built-in configuration: the
    [username], [exclude] and [order] of the document are dropped with
    it. *)
Theorem X4_load_drops_document_on_bad_projects
    (jsyaml_load : string -> result Yaml.doc) (w : Net.World)
    (response : Net.response) (yamlText : string) (m : Yaml.mapping) :
  Net.fetch w "projects.yaml" = Ok response ->
  Net.ok response = true ->
  Net.text response = Ok yamlText ->
  jsyaml_load yamlText = Ok (Yaml.Mapping m) ->
  Yaml.projects m = Yaml.NotASequence
  \/ (exists items, Yaml.projects m = Yaml.Items items /\ In None items) ->
  Config.load jsyaml_load None w = (Config.defaults, Some Config.defaults).
Proof.
  intros Hfetch Hok Htext Hparse Hbad.
  unfold Config.load, Config.tryLoad.
  rewrite Hfetch. simpl. rewrite Hok. simpl. rewrite Htext. simpl. rewrite Hparse. simpl.
  destruct Hbad as [Hbad | [items [Hbad Hin]]]; rewrite Hbad; simpl; [reflexivity|].
  destruct (mapM_normalizeProject_null items Hin) as [e He]. now rewrite He.
Qed.

Lemma X4_load_drops_document_on_bad_projects_witness :
  Config.load
    (Sample.parsesTo
       (Yaml.mk (JStr "alice") (Some [JStr "secret"]) None
          (Yaml.Items [Some Sample.redirected; None])))
    None Sample.world
  = (Config.defaults, Some Config.defaults).
Proof.
  refine (X4_load_drops_document_on_bad_projects _ Sample.world _ _ _
            eq_refl eq_refl eq_refl eq_refl _).
  right. eexists. split; [reflexivity | right; left; reflexivity].
Defined.

Lemma mapM_normalizeProject_Some (raws : list Entry.t) :
  exists es,
    mapM Config.normalizeProject (map Some raws) = Ok es
    /\ Forall2 (fun raw e => Config.normalizeProject (Some raw) = Ok e) raws es.
Proof.
  induction raws as [|raw raws [es [Hes Hall]]]; simpl.
  - exists []. split; [reflexivity | constructor].
  - rewrite Hes. simpl. eexists. split; [reflexivity|].
    constructor; [reflexivity | exact Hall].
Qed.

(** X5: when [projects.yaml] is served and parses to a mapping whose
    [projects] are mappings, [load] stores the configuration of the
    document: its [username], or [''] without one; its [exclude] and
    [order], or empty lists; its entries, normalized one by one, in the
    same order. *)
Theorem X5_load_keeps_document
    (jsyaml_load : string -> result Yaml.doc) (w : Net.World)
    (response : Net.response) (yamlText : string) (m : Yaml.mapping)
    (raws : list Entry.t) :
  Net.fetch w "projects.yaml" = Ok response ->
  Net.ok response = true ->
  Net.text response = Ok yamlText ->
  jsyaml_load yamlText = Ok (Yaml.Mapping m) ->
  Yaml.projects m = Yaml.Items (map Some raws) ->
  exists es,
    Forall2 (fun raw e => Config.normalizeProject (Some raw) = Ok e) raws es
    /\ Config.load jsyaml_load None w
       = (let c := {| Config.username := Yaml.username m ||| JStr "";
                      Config.exclude := match Yaml.exclude m with Some l => l | None => [] end;
                      Config.order := match Yaml.order m with Some l => l | None => [] end;
                      Config.projects := es |} in
          (c, Some c)).
Proof.
  intros Hfetch Hok Htext Hparse Hitems.
  destruct (mapM_normalizeProject_Some raws) as [es [Hes Hall]].
  exists es. split; [exact Hall|].
  unfold Config.load, Config.tryLoad.
  rewrite Hfetch. simpl. rewrite Hok. simpl. rewrite Htext. simpl. rewrite Hparse. simpl.
  rewrite Hitems, Hes. reflexivity.
Qed.

Lemma X5_load_keeps_document_witness :
  exists es,
    Config.load
      (Sample.parsesTo (Yaml.mk JNull None (Some [JStr "b"]) (Yaml.Items (map Some [Sample.nameOnly]))))
      None Sample.world
    = (Config.mkConfiguration (JStr "") [] [JStr "b"] es,
       Some (Config.mkConfiguration (JStr "") [] [JStr "b"] es)).
Proof.
  destruct (X5_load_keeps_document
              (Sample.parsesTo
                 (Yaml.mk JNull None (Some [JStr "b"]) (Yaml.Items (map Some [Sample.nameOnly]))))
              Sample.world _ _ _ [Sample.nameOnly] eq_refl eq_refl eq_refl eq_refl eq_refl)
    as [es [_ Hload]].
  exists es. exact Hload.
Defined.

(** ** [Config]: the accessors *)

(** X6: [getProjectOverride] finds an entry of the configuration whose
    [repo] is the name asked for, and finds none exactly when no entry has
    that [repo]. *)
Theorem X6_getProjectOverride_lookup (config : Config.state) (repoName : string) :
  (forall e, Config.getProjectOverride config repoName = Some e ->
     In e (Config.getProjects config) /\ Entry.repo e = JStr repoName)
  /\ (Config.getProjectOverride config repoName = None
      <-> forall e, In e (Config.getProjects config) -> Entry.repo e <> JStr repoName).
Proof.
  unfold Config.getProjectOverride. split.
  - intros e He. apply find_some in He as [Hin Heq]. split; [exact Hin|].
    now apply strict_eq_true.
  - split.
    + intros Hnone e Hin Hrepo.
      pose proof (find_none _ _ Hnone e Hin) as Hf. simpl in Hf.
      rewrite (proj2 (strict_eq_true _ _) Hrepo) in Hf. discriminate.
    + intros Hall.
      destruct (find _ (Config.getProjects config)) as [e|] eqn:E; [|reflexivity].
      apply find_some in E as [Hin Heq]. apply strict_eq_true in Heq.
      exfalso. exact (Hall e Hin Heq).
Qed.

(** X7: the names [getReposWithCustomUrls] returns are non-empty strings,
    and each is the [repo] of an entry that [getManualProjects] returns: a
    repository taken off the auto-discovered list for its custom url has an
    entry in the manual list. *)
Theorem X7_custom_url_repos_are_manual (config : Config.state) :
  Forall (fun v => truthy v = true
                   /\ exists e, In e (Config.getManualProjects config) /\ Entry.repo e = v)
    (Config.getReposWithCustomUrls config).
Proof.
  apply Forall_forall. intros v Hv.
  unfold Config.getReposWithCustomUrls in Hv.
  apply in_map_iff in Hv as [e [<- Hin]].
  apply filter_In in Hin as [Hin Ht]. apply andb_true_iff in Ht as [Hurl Hrepo].
  split; [exact Hrepo|]. exists e. split; [|reflexivity].
  unfold Config.getManualProjects. apply filter_In. now split.
Qed.

(** ** [GitHubAPI]: the merge *)

(** X8: after [load], the project of a repository that passes the filters
    always links to the pages address built from the account and the
    repository name, and to the repository's own [html_url]: an entry can
    change its name, description and thumbnail, never its [url], since an
    entry with a url takes the repository off the list. *)
Theorem X8_auto_project_url_is_pages_url
    (jsyaml_load : string -> result Yaml.doc) (w : Net.World)
    (repos : list Repo.t) (account : jsval) (r : Repo.t) :
  let config := loaded jsyaml_load w in
  In r (survivors config repos) ->
  Project.url (GitHubAPI.withOverride config account r)
  = JStr ("https://" ++ toStr account ++ ".github.io/" ++ Repo.name r ++ "/")
  /\ Project.repoUrl (GitHubAPI.withOverride config account r) = JStr (Repo.html_url r)
  /\ Project.isAutoDiscovered (GitHubAPI.withOverride config account r) = true.
Proof.
  intros config Hin.
  pose proof (loaded_normalized jsyaml_load w) as Hn. fold config in Hn.
  apply survivors_In in Hin as [_ [_ Hk]].
  apply (keptByConfig_true config r Hn) in Hk as [_ Hno].
  unfold GitHubAPI.withOverride, Config.getProjectOverride.
  destruct (find _ (Config.getProjects config)) as [e|] eqn:E; simpl.
  - apply find_some in E as [He Hrepo]. apply strict_eq_true in Hrepo.
    assert (Entry.url e = JNull) as Hurl.
    { destruct (Entry.url e) eqn:Eu; [exfalso | reflexivity | exfalso];
        apply Hno; exists e; rewrite Eu; repeat split; auto; discriminate. }
    rewrite Hurl. repeat split.
  - repeat split.
Qed.

Lemma X8_auto_project_url_is_pages_url_witness :
  Project.url
    (GitHubAPI.withOverride (Sample.configOf [Sample.overrideOnly] []) (JStr "alice")
       (Sample.repo "x" true))
  = JStr "https://alice.github.io/x/".
Proof.
  refine (proj1 (X8_auto_project_url_is_pages_url
                   (Sample.parsesTo
                      (Yaml.mk (JStr "alice") None (Some [])
                         (Yaml.Items (map Some [Sample.overrideOnly]))))
                   Sample.world [Sample.repo "x" true] (JStr "alice")
                   (Sample.repo "x" true) _)).
  left; reflexivity.
Defined.

(** X9: after [load], every entry with a url is in the output of the
    merge, whatever the repositories and whatever [exclude] lists: the
    exclusion list hides auto-discovered repositories only. *)
Theorem X9_exclude_spares_manual_entries
    (localeCompare : string -> string -> Z)
    (jsyaml_load : string -> result Yaml.doc) (w : Net.World)
    (repos : list Repo.t) (account : jsval) (e : Entry.t) :
  let config := loaded jsyaml_load w in
  In e (Config.getProjects config) -> Entry.url e <> JNull ->
  exists out,
    reconcile localeCompare config repos account = Ok out
    /\ In (GitHubAPI.manualProject account e) out.
Proof.
  intros config He Hurl.
  pose proof (loaded_normalized jsyaml_load w) as Hn. fold config in Hn.
  destruct (reconcile_branches localeCompare config repos account Hn) as [out [Hout Hp]].
  exists out. split; [exact Hout|].
  apply (Permutation_in _ Hp). apply in_or_app. right.
  unfold manualBranch. apply in_map.
  unfold Config.getManualProjects. apply filter_In. split; [exact He|].
  rewrite Forall_forall in Hn. now apply normalized_url_truthy; [apply Hn|].
Qed.

Lemma X9_exclude_spares_manual_entries_witness :
  exists out,
    reconcile Collation.caseless
      (loaded (Sample.parsesTo (Demo.document [JStr "proj1"] [Some Sample.redirected]))
         Sample.world)
      [Sample.repo "proj1" true] (JStr "alice") = Ok out
    /\ map Project.url out = [JStr "https://example.com/proj1"].
Proof.
  destruct (X9_exclude_spares_manual_entries Collation.caseless
              (Sample.parsesTo (Demo.document [JStr "proj1"] [Some Sample.redirected]))
              Sample.world [Sample.repo "proj1" true] (JStr "alice")
              (Entry.mk (JStr "proj1") (JStr "proj1") JNull
                 (JStr "https://example.com/proj1") JNull JNull JNull))
    as [out [Hout _]].
  - left; reflexivity.
  - discriminate.
  - exists out. split; [exact Hout|].
    vm_compute in Hout. injection Hout as <-. reflexivity.
Defined.

Lemma filter_all {A : Type} (f : A -> bool) (l : list A) :
  (forall x, In x l -> f x = true) -> filter f l = l.
Proof.
  induction l as [|a l IH]; intros H; simpl; [reflexivity|].
  rewrite (H a (or_introl eq_refl)). f_equal. apply IH. intros x Hx. apply H. now right.
Qed.

(** X10: with no entry and nothing excluded (the built-in configuration,
    or none loaded), the merge returns the transforms of exactly the
    pages-enabled repositories, reordered. *)
Theorem X10_merge_without_configuration
    (localeCompare : string -> string -> Z) (config : Config.state)
    (repos : list Repo.t) (account : jsval) :
  Config.getProjects config = [] -> Config.getExcluded config = [] ->
  exists out,
    reconcile localeCompare config repos account = Ok out
    /\ Permutation
         (map (fun r => GitHubAPI.transformRepo r account) (GitHubAPI.filterPagesEnabled repos))
         out.
Proof.
  intros Hprojects Hexcluded.
  assert (Forall normalized (Config.getProjects config)) as Hn
    by (rewrite Hprojects; constructor).
  destruct (reconcile_branches localeCompare config repos account Hn) as [out [Hout Hp]].
  exists out. split; [exact Hout|].
  eapply perm_trans; [|exact Hp].
  unfold manualBranch, autoBranch, survivors, Config.getManualProjects.
  rewrite Hprojects. simpl. rewrite app_nil_r.
  rewrite filter_all.
  - erewrite map_ext; [apply Permutation_refl|].
    intros r. unfold GitHubAPI.withOverride, Config.getProjectOverride.
    now rewrite Hprojects.
  - intros r _. unfold GitHubAPI.keptByConfig, Config.getReposWithCustomUrls.
    now rewrite Hexcluded, Hprojects.
Qed.

Lemma X10_merge_without_configuration_witness :
  exists out,
    reconcile Collation.caseless (Some Config.defaults)
      [Sample.repo "b" true; Sample.repo "draft" false; Sample.repo "a" true]
      (JStr "darrenmcewan") = Ok out
    /\ map Project.name out = [JStr "a"; JStr "b"].
Proof.
  destruct (X10_merge_without_configuration Collation.caseless (Some Config.defaults)
              [Sample.repo "b" true; Sample.repo "draft" false; Sample.repo "a" true]
              (JStr "darrenmcewan") eq_refl eq_refl) as [out [Hout _]].
  exists out. split; [exact Hout|].
  vm_compute in Hout. injection Hout as <-. reflexivity.
Defined.

(** X11: [getProjects] throws as soon as one of its two requests does: a
    failed profile request loses the repositories that were fetched, and
    a response whose status is not a success is thrown as
    [GitHub API error: <status>] without its body being read. *)
Theorem X11_getProjects_needs_both_requests
    (localeCompare : string -> string -> Z) (config : Config.state) (w : Net.World) :
  let username := Config.getUsername config in
  (forall e, GitHubAPI.fetchUserRepos w username = Throw e ->
     exists e', GitHubAPI.getProjects localeCompare config w = Throw e')
  /\ (forall j e, GitHubAPI.fetchUserRepos w username = Ok j ->
        GitHubAPI.fetchUserProfile w username = Throw e ->
        GitHubAPI.getProjects localeCompare config w = Throw e)
  /\ (forall response,
        Net.fetch w ("https://api.github.com/users/" ++ toStr username
                     ++ "/repos?per_page=100&sort=updated")%string = Ok response ->
        Net.ok response = false ->
        GitHubAPI.fetchUserRepos w username
        = Throw (Error ("GitHub API error: " ++ ofZ (Net.status response))))
  /\ (forall response,
        Net.fetch w ("https://api.github.com/users/" ++ toStr username)%string = Ok response ->
        Net.ok response = false ->
        GitHubAPI.fetchUserProfile w username
        = Throw (Error ("GitHub API error: " ++ ofZ (Net.status response)))).
Proof.
  intros username. repeat split.
  - intros e He. exists e.
    unfold GitHubAPI.getProjects. cbv zeta. fold username. now rewrite He.
  - intros j e Hj He. unfold GitHubAPI.getProjects. cbv zeta. fold username.
    now rewrite Hj, He.
  - intros response Hfetch Hok. unfold GitHubAPI.fetchUserRepos, GitHubAPI.API_BASE.
    cbv zeta. simpl append in *. rewrite Hfetch. simpl. now rewrite Hok.
  - intros response Hfetch Hok. unfold GitHubAPI.fetchUserProfile, GitHubAPI.API_BASE.
    cbv zeta. simpl append in *. rewrite Hfetch. simpl. now rewrite Hok.
Qed.

(** ** [GitHubAPI]: the fallback *)

(** X12: in every state of [Config], loaded or not, when the names the
    fallback gives its projects are strings, [getManualProjectsOnly]
    returns: one project for each entry, with or without a url, none of
    them auto-discovered, and a profile built from the account name
    alone. *)
Theorem X12_fallback_returns
    (localeCompare : string -> string -> Z) (config : Config.state) :
  let username := Config.getUsername config in
  Forall namedByString
    (map (GitHubAPI.fallbackProject username) (Config.getProjects config)) ->
  exists out,
    GitHubAPI.getManualProjectsOnly localeCompare config
    = Ok (out,
          {| Profile.username := username;
             Profile.avatarUrl := JStr ("https://github.com/" ++ toStr username ++ ".png");
             Profile.profileUrl := JStr ("https://github.com/" ++ toStr username) |})
    /\ Permutation (map (GitHubAPI.fallbackProject username) (Config.getProjects config)) out
    /\ List.length out = List.length (Config.getProjects config)
    /\ Forall (fun p => Project.isAutoDiscovered p = false) out.
Proof.
  intros username Hn.
  unfold GitHubAPI.getManualProjectsOnly. cbv zeta. fold username.
  set (l := map (GitHubAPI.fallbackProject username) (Config.getProjects config)) in *.
  destruct (sort_perm _ _ _
              (byOrder_agrees localeCompare (Config.getOrder config)) l Hn)
    as [out [Hout Hp]].
  rewrite Hout. simpl. exists out. split; [reflexivity|]. split; [exact Hp|]. split.
  - rewrite <- (Permutation_length Hp). unfold l. apply length_map.
  - apply Forall_forall. intros p Hin.
    apply (Permutation_in _ (Permutation_sym Hp)) in Hin.
    apply in_map_iff in Hin as [e [<- _]]. reflexivity.
Qed.

Lemma X12_fallback_returns_witness :
  exists out profile,
    GitHubAPI.getManualProjectsOnly Collation.caseless
      (Sample.configOf [Sample.repoOnly; Sample.nameOnly] [])
    = Ok (out, profile)
    /\ map Project.name out = [JStr "Notes"; JStr "proj1"].
Proof.
  destruct (X12_fallback_returns Collation.caseless
              (Sample.configOf [Sample.repoOnly; Sample.nameOnly] []))
    as [out [Hout _]].
  - repeat constructor; eexists; reflexivity.
  - exists out. eexists. split; [exact Hout|].
    vm_compute in Hout. injection Hout as <-. reflexivity.
Defined.

(** X13: for a [localeCompare] that is a consistent comparison, the list
    of the fallback is in the three-tier order of [order], also when
    [order] is empty. *)
Theorem X13_fallback_is_ordered
    (localeCompare : string -> string -> Z)
    (total : forall s t, localeCompare s t <= 0 \/ localeCompare t s <= 0)
    (trans : forall s t u,
        localeCompare s t <= 0 -> localeCompare t u <= 0 -> localeCompare s u <= 0)
    (config : Config.state) :
  exists out,
    reconcileManualOnly localeCompare config = Ok out
    /\ StronglySorted (precedes localeCompare (Config.getOrder config)) out.
Proof.
  destruct (fallback_branches localeCompare config) as [out [Hout _]].
  exists out. split; [exact Hout|].
  unfold reconcileManualOnly, GitHubAPI.getManualProjectsOnly in Hout. cbv zeta in Hout.
  set (l := map (GitHubAPI.fallbackProject (Config.getUsername config))
              (Config.getProjects config)) in Hout.
  assert (Forall namedByString l) as Hn.
  { apply Forall_forall. intros p Hp. apply in_map_iff in Hp as [e [<- _]].
    apply fallbackProject_named. }
  destruct (sort (GitHubAPI.byOrder localeCompare (Config.getOrder config)) l)
    as [s|] eqn:Hs; [|discriminate].
  simpl in Hout. injection Hout as <-.
  eapply StronglySorted_impl; [intros a b; apply byOrderZ_precedes|].
  apply (sort_sorted _ _ _
           (byOrder_agrees localeCompare (Config.getOrder config))) with (l := l); auto.
  - intros x y. now apply byOrderZ_total.
  - intros x y z. now apply byOrderZ_trans.
Qed.

Lemma X13_fallback_is_ordered_witness :
  exists out,
    reconcileManualOnly Collation.caseless
      (Sample.configOf [Sample.repoOnly; Sample.nameOnly; Sample.overrideOnly] [JStr "x"])
    = Ok out
    /\ map Project.name out = [JStr "x"; JStr "Notes"; JStr "proj1"].
Proof.
  destruct (X13_fallback_is_ordered Collation.caseless caseless_total caseless_trans
              (Sample.configOf [Sample.repoOnly; Sample.nameOnly; Sample.overrideOnly]
                 [JStr "x"]))
    as [out [Hout _]].
  exists out. split; [exact Hout|].
  vm_compute in Hout. injection Hout as <-. reflexivity.
Defined.

(** ** What the projects look like *)

Lemma js_or_truthy_r (a b : jsval) : truthy b = true -> truthy (a ||| b) = true.
Proof. intros Hb. unfold js_or. destruct (truthy a) eqn:E; [exact E | exact Hb]. Qed.

(** X14: no project comes out without a url.  After [load], every project
    of the merge has a non-empty [url]; every project of the fallback has
    one in every state of [Config]. *)
Theorem X14_every_project_has_a_url
    (localeCompare : string -> string -> Z)
    (jsyaml_load : string -> result Yaml.doc) (w : Net.World)
    (repos : list Repo.t) (account : jsval) (config : Config.state) :
  (exists out,
     reconcile localeCompare (loaded jsyaml_load w) repos account = Ok out
     /\ Forall (fun p => truthy (Project.url p) = true) out)
  /\ (exists out,
        reconcileManualOnly localeCompare config = Ok out
        /\ Forall (fun p => truthy (Project.url p) = true) out).
Proof.
  split.
  - pose proof (loaded_normalized jsyaml_load w) as Hn.
    destruct (reconcile_branches localeCompare _ repos account Hn) as [out [Hout Hp]].
    exists out. split; [exact Hout|].
    apply Forall_forall. intros p Hin.
    apply (Permutation_in _ (Permutation_sym Hp)) in Hin.
    apply in_app_or in Hin as [Hin | Hin]; apply in_map_iff in Hin as [x [<- Hx]].
    + unfold GitHubAPI.withOverride.
      destruct (Config.getProjectOverride _ (Repo.name x)); simpl.
      * now apply js_or_truthy_r.
      * reflexivity.
    + unfold Config.getManualProjects in Hx. now apply filter_In in Hx.
  - destruct (fallback_branches localeCompare config) as [out [Hout Hp]].
    exists out. split; [exact Hout|].
    apply Forall_forall. intros p Hin.
    apply (Permutation_in _ (Permutation_sym Hp)) in Hin.
    apply in_map_iff in Hin as [e [<- _]]. simpl.
    apply js_or_truthy_r. now destruct (truthy (Entry.repo e)).
Qed.

(** X15: the project the merge builds from a raw entry: its [name] is
    the entry's [name], else its [repo], else ["Untitled"]; its
    [description] is the entry's, else the empty string; [url] and
    [thumbnail] are the entry's, else [null]. *)
Theorem X15_manual_project_defaults (account : jsval) (raw e : Entry.t) :
  Config.normalizeProject (Some raw) = Ok e ->
  let p := GitHubAPI.manualProject account e in
  Project.name p = Entry.name raw ||| Entry.repo raw ||| JStr "Untitled"
  /\ Project.description p = Entry.description raw ||| JStr ""
  /\ Project.url p = Entry.url raw ||| JNull
  /\ Project.thumbnail p = Entry.thumbnail raw ||| JNull
  /\ Project.isAutoDiscovered p = false.
Proof.
  intros [= <-]. simpl. repeat split.
  - apply js_or_truthy_l.
    set (v := Entry.name raw ||| Entry.repo raw). unfold js_or.
    destruct (truthy v) eqn:E; [exact E | reflexivity].
  - unfold js_or. destruct (truthy (Entry.description raw)) eqn:E; [now rewrite E | reflexivity].
Qed.

Lemma X15_manual_project_defaults_witness :
  Project.name
    (GitHubAPI.manualProject (JStr "alice")
       (Entry.mk JNull (JStr "Untitled") JNull (JStr "https://example.org/") JNull JNull JNull))
  = JStr "Untitled".
Proof.
  exact (proj1 (X15_manual_project_defaults (JStr "alice")
                  (Entry.mk JUndefined (JStr "") JUndefined (JStr "https://example.org/")
                     JUndefined JUndefined JUndefined)
                  _ eq_refl)).
Defined.

(** ** [App]: the theme and the search *)

(** X16: the theme switch.  Whatever the attribute held, [toggleTheme]
    leaves ["dark"] or ["light"]; a missing or unknown value becomes
    ["dark"]; and after [initTheme] two toggles give back the theme. *)
Theorem X16_toggleTheme_round_trip (prefersDark : bool) (page : App.Page) :
  (App.theme (App.toggleTheme page) = JStr "dark"
   \/ App.theme (App.toggleTheme page) = JStr "light")
  /\ (App.theme page <> JStr "dark" -> App.theme (App.toggleTheme page) = JStr "dark")
  /\ App.toggleTheme (App.toggleTheme (App.initTheme prefersDark page))
     = App.initTheme prefersDark page
  /\ App.toggleTheme (App.toggleTheme (App.toggleTheme page)) = App.toggleTheme page.
Proof.
  unfold App.toggleTheme, App.initTheme, App.setTheme. simpl. repeat split.
  - destruct (strict_eq (App.theme page) (JStr "dark")); auto.
  - intros Hne. destruct (strict_eq (App.theme page) (JStr "dark")) eqn:E; [|reflexivity].
    apply strict_eq_true in E. contradiction.
  - destruct prefersDark; reflexivity.
  - destruct (strict_eq (App.theme page) (JStr "dark")); reflexivity.
Qed.

Lemma prefix_empty (s : string) : String.prefix "" s = true.
Proof. now destruct s. Qed.

Lemma strIncludes_empty (s : string) : App.strIncludes s "" = true.
Proof. destruct s; simpl; [reflexivity|]. reflexivity. Qed.

Section Search.
Variable toLowerCase : string -> string.
Variable trim : string -> string.

Lemma setShown_data (b : bool) (tile : App.Tile) (q : string) :
  App.matchesQuery q (App.setShown b tile) = App.matchesQuery q tile.
Proof. reflexivity. Qed.

Lemma setShown_absorbs (b b' : bool) (tile : App.Tile) :
  App.setShown b (App.setShown b' tile) = App.setShown b tile.
Proof. reflexivity. Qed.

(** X17: a search starts afresh: filtering by one query and then by
    another leaves the page as filtering by the second alone does, so
    tiles hidden by an earlier query come back. *)
Theorem X17_filterProjects_is_not_cumulative (q1 q2 : string) (page : App.Page) :
  App.filterProjects toLowerCase trim q2 (App.filterProjects toLowerCase trim q1 page)
  = App.filterProjects toLowerCase trim q2 page.
Proof.
  unfold App.filterProjects. cbv zeta.
  destruct (App.grid page) as [tiles | html] eqn:Hgrid; simpl.
  - rewrite !map_map. simpl.
    unfold App.updateNoResultsVisibility, App.setGrid. simpl. reflexivity.
  - rewrite Hgrid. reflexivity.
Qed.

(** X18: a query that is empty once lower-cased and trimmed shows every
    tile; the "no results" message is then visible exactly when the grid
    has no tile. *)
Theorem X18_blank_query_shows_everything (query : string) (page : App.Page)
    (tiles : list App.Tile) :
  trim (toLowerCase query) = ""%string ->
  App.grid page = App.Tiles tiles ->
  App.grid (App.filterProjects toLowerCase trim query page)
  = App.Tiles (map (App.setShown true) tiles)
  /\ App.noResultsVisible (App.filterProjects toLowerCase trim query page)
     = Nat.eqb (List.length tiles) 0.
Proof.
  intros Hblank Hgrid. unfold App.filterProjects. cbv zeta.
  rewrite Hgrid, Hblank. simpl.
  assert (map (fun tile => App.setShown (App.matchesQuery "" tile) tile) tiles
          = map (App.setShown true) tiles) as Hmap.
  { apply map_ext. intros tile. unfold App.matchesQuery.
    now rewrite strIncludes_empty. }
  rewrite Hmap. split; [reflexivity|].
  f_equal. rewrite filter_all, length_map; [reflexivity|].
  intros t Ht. apply in_map_iff in Ht as [t' [<- _]]. reflexivity.
Qed.
End Search.

Lemma X18_blank_query_shows_everything_witness :
  App.noResultsVisible
    (App.filterProjects Demo.toLowerCase Demo.trim "   "
       (App.setGrid (App.Tiles [App.mkTile (JStr "#") "notes" "" None None (JStr "Notes")
                                  (JStr "No description available") false])
          Demo.blank))
  = false.
Proof.
  exact (proj2 (X18_blank_query_shows_everything Demo.toLowerCase Demo.trim "   "
                  (App.setGrid
                     (App.Tiles [App.mkTile (JStr "#") "notes" "" None None (JStr "Notes")
                                   (JStr "No description available") false])
                     Demo.blank)
                  _ eq_refl eq_refl)).
Defined.

Lemma prefix_spec (q s : string) :
  String.prefix q s = true <-> exists b, s = (q ++ b)%string.
Proof.
  revert s. induction q as [|c q IH]; intros s.
  - split; [intros _; now exists s | intros _; apply prefix_empty].
  - destruct s as [|d s]; simpl; [split; [discriminate | intros [b Hb]; discriminate]|].
    destruct (ascii_dec c d) as [<- | Hne].
    + rewrite IH. split; intros [b Hb]; exists b; congruence.
    + split; [discriminate | intros [b Hb]; congruence].
Qed.

Lemma strIncludes_spec (s q : string) :
  App.strIncludes s q = true <-> exists a b, s = (a ++ q ++ b)%string.
Proof.
  induction s as [|c s IH]; cbn [App.strIncludes].
  - rewrite String.eqb_eq. split.
    + intros ->. now exists ""%string, ""%string.
    + intros [a [b H]]. destruct a; [|discriminate]. now destruct q.
  - rewrite orb_true_iff, IH. split.
    + intros [Hp | [a [b H]]].
      * apply prefix_spec in Hp as [b Hb]. now exists ""%string, b.
      * exists (String c a), b. simpl. now rewrite H.
    + intros [a [b H]]. destruct a as [|d a].
      * left. apply prefix_spec. now exists b.
      * right. exists a, b. simpl in H. congruence.
Qed.

(** X19: the search is a substring match on the lower-cased texts.  After
    [filterProjects] the grid holds the same tiles in the same order, each
    changed in its visibility only; a tile is visible exactly when its
    [data-name] or its [data-description] contains the lower-cased,
    trimmed query; the "no results" message is visible exactly when no
    tile is. *)
Theorem X19_search_is_substring_match
    (toLowerCase trim : string -> string) (query : string) (page : App.Page)
    (tiles : list App.Tile) :
  App.grid page = App.Tiles tiles ->
  let q := trim (toLowerCase query) in
  let page' := App.filterProjects toLowerCase trim query page in
  exists tiles',
    App.grid page' = App.Tiles tiles'
    /\ Forall2
         (fun t t' =>
            t' = App.setShown (App.shown t') t
            /\ (App.shown t' = true
                <-> (exists a b, App.dataName t = (a ++ q ++ b)%string)
                    \/ (exists a b, App.dataDescription t = (a ++ q ++ b)%string)))
         tiles tiles'
    /\ (App.noResultsVisible page' = true <-> Forall (fun t' => App.shown t' = false) tiles').
Proof.
  intros Hgrid q page'. unfold page', App.filterProjects. cbv zeta.
  rewrite Hgrid. fold q. simpl.
  set (tiles' := map (fun tile => App.setShown (App.matchesQuery q tile) tile) tiles).
  exists tiles'. split; [reflexivity|]. split.
  - unfold tiles'. clear. induction tiles as [|t tiles IH]; simpl; constructor; [|exact IH].
    split; [reflexivity|]. simpl. unfold App.matchesQuery.
    now rewrite orb_true_iff, !strIncludes_spec.
  - rewrite Nat.eqb_eq. generalize tiles'. clear. intros l.
    induction l as [|t l IH]; simpl.
    + split; [constructor | reflexivity].
    + destruct (App.shown t) eqn:E; simpl.
      * split; [discriminate|]. intros H. inversion H; congruence.
      * rewrite IH. split; [now constructor | intros H; now inversion H].
Qed.

Lemma X19_search_is_substring_match_witness :
  exists tiles',
    App.grid
      (App.filterProjects Demo.toLowerCase Demo.trim " NOT "
         (App.setGrid
            (App.Tiles [App.mkTile (JStr "#") "notes" "" None None (JStr "Notes")
                          (JStr "No description available") true;
                        App.mkTile (JStr "#") "proj1" "" None None (JStr "proj1")
                          (JStr "No description available") true])
            Demo.blank))
    = App.Tiles tiles'
    /\ map App.shown tiles' = [true; false].
Proof.
  destruct (X19_search_is_substring_match Demo.toLowerCase Demo.trim " NOT "
              (App.setGrid
                 (App.Tiles [App.mkTile (JStr "#") "notes" "" None None (JStr "Notes")
                               (JStr "No description available") true;
                             App.mkTile (JStr "#") "proj1" "" None None (JStr "proj1")
                               (JStr "No description available") true])
                 Demo.blank)
              _ eq_refl) as [tiles' [Hgrid _]].
  exists tiles'. split; [exact Hgrid|].
  vm_compute in Hgrid. injection Hgrid as <-. reflexivity.
Defined.

(** ** [App]: rendering and [init] *)

Section Rendering.
Variable toLowerCase : string -> string.

Lemma appendTiles_Ok (projects : list Project.t) (acc tiles : list App.Tile) :
  App.appendTiles toLowerCase projects acc = (Ok tt, tiles) ->
  exists new,
    tiles = acc ++ new
    /\ Forall2 (fun p t => App.createTile toLowerCase p = Ok t) projects new.
Proof.
  revert acc. induction projects as [|p projects IH]; intros acc; simpl.
  - intros [= <-]. exists []. split; [now rewrite app_nil_r | constructor].
  - destruct (App.createTile toLowerCase p) as [t|] eqn:Ht; [|discriminate].
    intros H. apply IH in H as [new [-> Hall]].
    exists (t :: new). split; [now rewrite <- app_assoc | now constructor].
Qed.

Lemma appendTiles_Throw (projects : list Project.t) (acc tiles : list App.Tile) (e : exn) :
  App.appendTiles toLowerCase projects acc = (Throw e, tiles) ->
  exists p, In p projects /\ App.createTile toLowerCase p = Throw e.
Proof.
  revert acc. induction projects as [|p projects IH]; intros acc; simpl.
  - discriminate.
  - destruct (App.createTile toLowerCase p) as [t|e'] eqn:Ht.
    + intros H. apply IH in H as [q [Hq He]]. exists q. auto.
    + intros [= <- _]. exists p. auto.
Qed.

Lemma appendTiles_renders (projects : list Project.t) (acc : list App.Tile) :
  Forall (fun p => exists t, App.createTile toLowerCase p = Ok t) projects ->
  exists tiles, App.appendTiles toLowerCase projects acc = (Ok tt, tiles).
Proof.
  intros Hn. revert acc. induction Hn as [|p projects [t Ht] _ IH]; intros acc; simpl.
  - now eexists.
  - rewrite Ht. apply IH.
Qed.

Lemma display_Ok (answer : list Project.t * Profile.t) (page page' : App.Page) :
  App.display toLowerCase answer page = (Ok tt, page') ->
  App.displays toLowerCase answer page'
  /\ App.theme page' = App.theme page.
Proof.
  destruct answer as [projects profile]. unfold App.display, App.renderProjects.
  destruct (App.appendTiles toLowerCase projects []) as [outcome tiles] eqn:Ha.
  destruct outcome as [[]|e]; [|discriminate].
  apply appendTiles_Ok in Ha as [new [-> Hall]]. simpl.
  intros [= <-]. unfold App.displays. simpl. repeat split.
  now exists new.
Qed.

Lemma display_Throw (answer : list Project.t * Profile.t) (page page' : App.Page)
    (e : exn) :
  App.display toLowerCase answer page = (Throw e, page') ->
  App.cannotShow toLowerCase (Ok answer)
  /\ App.theme page' = App.theme page.
Proof.
  destruct answer as [projects profile]. unfold App.display, App.renderProjects.
  destruct (App.appendTiles toLowerCase projects []) as [outcome tiles] eqn:Ha.
  destruct outcome as [[]|e']; [discriminate|].
  apply appendTiles_Throw in Ha as [p [Hp He]].
  intros [= <- <-]. split; [|reflexivity].
  simpl. now exists p, e'.
Qed.

Lemma display_renders (answer : list Project.t * Profile.t) (page : App.Page) :
  App.renders toLowerCase answer ->
  exists page', App.display toLowerCase answer page = (Ok tt, page').
Proof.
  destruct answer as [projects profile]. unfold App.renders. simpl. intros Hn.
  unfold App.display, App.renderProjects.
  destruct (appendTiles_renders projects [] Hn) as [tiles Ht]. rewrite Ht.
  now eexists.
Qed.

Lemma renders_not_cannotShow (answer : list Project.t * Profile.t) :
  App.renders toLowerCase answer -> ~ App.cannotShow toLowerCase (Ok answer).
Proof.
  unfold App.renders. intros Hr [p [e [Hin He]]].
  rewrite Forall_forall in Hr. destruct (Hr p Hin) as [t Ht]. congruence.
Qed.
End Rendering.

Section Init.
Variable toLowerCase : string -> string.
Variable jsyaml_load : string -> result Yaml.doc.
Variable localeCompare : string -> string -> Z.

(** The page [init] ends with: the three ways through its [try] blocks. *)
Lemma init_cases (prefersDark : bool) (config : Config.state) (w : Net.World)
    (page : App.Page) :
  let started := App.showLoading (App.initTheme prefersDark page) in
  let config' := snd (Config.load jsyaml_load config w) in
  let primary := GitHubAPI.getProjects localeCompare config' w in
  let fallback := GitHubAPI.getManualProjectsOnly localeCompare config' in
  exists shown,
    App.init toLowerCase jsyaml_load localeCompare prefersDark config w page
    = (App.hideLoading shown, config')
    /\ App.theme shown = App.theme started
    /\ ((exists answer, primary = Ok answer /\ App.displays toLowerCase answer shown)
        \/ (exists answer,
              fallback = Ok answer /\ App.displays toLowerCase answer shown
              /\ App.cannotShow toLowerCase primary)
        \/ (App.grid shown = App.Markup "Unable to load projects"
            /\ App.cannotShow toLowerCase primary
            /\ App.cannotShow toLowerCase fallback)).
Proof.
  intros started config' primary fallback.
  assert (forall before,
            App.theme before = App.theme started ->
            App.cannotShow toLowerCase primary ->
            exists shown,
              (let (outcome, page) :=
                 match fallback with
                 | Ok answer => App.display toLowerCase answer before
                 | Throw e => (Throw e, before)
                 end in
               match outcome with
               | Ok _ => page
               | Throw _ => App.setGrid (App.Markup "Unable to load projects") page
               end) = shown
              /\ App.theme shown = App.theme started
              /\ ((exists answer,
                     fallback = Ok answer /\ App.displays toLowerCase answer shown
                     /\ App.cannotShow toLowerCase primary)
                  \/ (App.grid shown = App.Markup "Unable to load projects"
                      /\ App.cannotShow toLowerCase primary
                      /\ App.cannotShow toLowerCase fallback))) as Hfallback.
  { intros before Htheme Hprimary.
    destruct fallback as [fb|e] eqn:Hfb.
    - destruct (App.display toLowerCase fb before) as [outcome shown] eqn:Hdisp.
      destruct outcome as [[]|e].
      + destruct (display_Ok _ _ _ _ Hdisp) as [Hd Ht].
        exists shown. split; [reflexivity|]. split; [congruence|].
        left. exists fb. auto.
      + destruct (display_Throw _ _ _ _ _ Hdisp) as [Hc Ht].
        eexists. split; [reflexivity|].
        split; [transitivity (App.theme shown); [reflexivity | congruence]|].
        right. split; [reflexivity | auto].
    - eexists. split; [reflexivity|].
      split; [transitivity (App.theme before); [reflexivity | exact Htheme]|].
      right. split; [reflexivity | split; [exact Hprimary | exact I]]. }
  unfold App.init. cbv zeta. fold started. fold config'. fold primary. fold fallback.
  destruct primary as [answer|e] eqn:Hget.
  - destruct (App.display toLowerCase answer started) as [outcome shown] eqn:Hdisp.
    destruct outcome as [[]|e].
    + destruct (display_Ok _ _ _ _ Hdisp) as [Hd Ht].
      exists shown. split; [reflexivity|]. split; [exact Ht|].
      left. exists answer. auto.
    + destruct (display_Throw _ _ _ _ _ Hdisp) as [Hc Ht].
      destruct (Hfallback shown Ht Hc) as [shown' [Heq [Ht' Hcases]]].
      exists shown'. rewrite Heq. split; [reflexivity|]. split; [exact Ht'|].
      right. exact Hcases.
  - destruct (Hfallback started eq_refl I) as [shown' [Heq [Ht' Hcases]]].
    exists shown'. rewrite Heq. split; [reflexivity|]. split; [exact Ht'|].
    right. exact Hcases.
Qed.
End Init.

(** X20: how [init] ends, for every network, parser, configuration state
    and page it starts from.  The configuration of [load] is stored, the
    theme is the preferred one, the spinner is hidden and the grid shown,
    whatever failed.  The grid holds a tile for each project of the answer
    of [getProjects]; or, when that threw or could not be rendered, of the
    answer of [getManualProjectsOnly]; or, when that threw or could not be
    rendered either, the text "Unable to load projects". *)
Theorem X20_init_outcomes
    (toLowerCase : string -> string)
    (jsyaml_load : string -> result Yaml.doc)
    (localeCompare : string -> string -> Z)
    (prefersDark : bool) (config : Config.state) (w : Net.World) (page : App.Page) :
  let result := App.init toLowerCase jsyaml_load localeCompare prefersDark config w page in
  let config' := snd (Config.load jsyaml_load config w) in
  let primary := GitHubAPI.getProjects localeCompare config' w in
  let fallback := GitHubAPI.getManualProjectsOnly localeCompare config' in
  snd result = config'
  /\ App.theme (fst result) = JStr (if prefersDark then "dark" else "light")
  /\ App.loadingHidden (fst result) = true
  /\ App.gridHidden (fst result) = false
  /\ ((exists answer, primary = Ok answer /\ App.displays toLowerCase answer (fst result))
      \/ (exists answer,
            fallback = Ok answer /\ App.displays toLowerCase answer (fst result)
            /\ App.cannotShow toLowerCase primary)
      \/ (App.grid (fst result) = App.Markup "Unable to load projects"
          /\ App.cannotShow toLowerCase primary
          /\ App.cannotShow toLowerCase fallback)).
Proof.
  intros result config' primary fallback.
  destruct (init_cases toLowerCase jsyaml_load localeCompare prefersDark config w page)
    as [shown [Hinit [Ht Hcases]]].
  unfold result. rewrite Hinit. simpl.
  split; [reflexivity|]. split; [exact Ht|]. split; [reflexivity|]. split; [reflexivity|].
  exact Hcases.
Qed.

(** X21: when [getProjects] throws (a request failed) and the answer of
    [getManualProjectsOnly] can be rendered, [init] shows that answer: its
    list and its profile. *)
Theorem X21_init_falls_back
    (toLowerCase : string -> string)
    (jsyaml_load : string -> result Yaml.doc)
    (localeCompare : string -> string -> Z)
    (prefersDark : bool) (config : Config.state) (w : Net.World) (page : App.Page)
    (e : exn) (answer : list Project.t * Profile.t) :
  let config' := snd (Config.load jsyaml_load config w) in
  GitHubAPI.getProjects localeCompare config' w = Throw e ->
  GitHubAPI.getManualProjectsOnly localeCompare config' = Ok answer ->
  App.renders toLowerCase answer ->
  App.displays toLowerCase answer
    (fst (App.init toLowerCase jsyaml_load localeCompare prefersDark config w page)).
Proof.
  intros config' Hthrow Hfb Hrenders.
  destruct (init_cases toLowerCase jsyaml_load localeCompare prefersDark config w page)
    as [shown [Hinit [_ Hcases]]].
  fold config' in Hcases. rewrite Hinit. simpl.
  destruct Hcases as [[a [H _]] | [[a [H [Hd _]]] | [_ [_ Hc]]]].
  - congruence.
  - rewrite Hfb in H. injection H as <-. exact Hd.
  - rewrite Hfb in Hc. exfalso. exact (renders_not_cannotShow toLowerCase answer Hrenders Hc).
Qed.

Lemma X21_init_falls_back_witness :
  map App.href
    (match App.grid
             (fst (App.init Demo.toLowerCase
                     (Sample.parsesTo (Demo.document [] [Some Sample.repoOnly]))
                     Collation.caseless true None
                     (Demo.api false 403 [Sample.repo "proj1" true]) Demo.blank))
     with App.Tiles tiles => tiles | App.Markup _ => [] end)
  = [JStr "https://alice.github.io/proj1/"].
Proof.
  destruct (X21_init_falls_back Demo.toLowerCase
              (Sample.parsesTo (Demo.document [] [Some Sample.repoOnly]))
              Collation.caseless true None
              (Demo.api false 403 [Sample.repo "proj1" true]) Demo.blank
              (Error "GitHub API error: 403")
              ([GitHubAPI.fallbackProject (JStr "alice")
                  (Entry.mk (JStr "proj1") (JStr "proj1") JNull JNull JNull JNull JNull)],
               Profile.mk (JStr "alice") (JStr "https://github.com/alice.png")
                 (JStr "https://github.com/alice"))
              eq_refl eq_refl)
    as [_ [_ [_ [tiles [Hgrid Hall]]]]].
  - repeat constructor. eexists. reflexivity.
  - rewrite Hgrid. vm_compute in Hgrid. injection Hgrid as <-. reflexivity.
Defined.

(** X22: when [getProjects] returns and its answer can be rendered,
    [init] shows exactly that answer: the merged list, a tile for each
    project in its order, and the header of the API's profile. *)
Theorem X22_init_shows_the_merge
    (toLowerCase : string -> string)
    (jsyaml_load : string -> result Yaml.doc)
    (localeCompare : string -> string -> Z)
    (prefersDark : bool) (config : Config.state) (w : Net.World) (page : App.Page)
    (answer : list Project.t * Profile.t) :
  let config' := snd (Config.load jsyaml_load config w) in
  GitHubAPI.getProjects localeCompare config' w = Ok answer ->
  App.renders toLowerCase answer ->
  App.displays toLowerCase answer
    (fst (App.init toLowerCase jsyaml_load localeCompare prefersDark config w page)).
Proof.
  intros config' Hget Hrenders.
  destruct (init_cases toLowerCase jsyaml_load localeCompare prefersDark config w page)
    as [shown [Hinit [_ Hcases]]].
  fold config' in Hcases. rewrite Hinit. simpl.
  destruct Hcases as [[a [H Hd]] | [[a [_ [_ Hc]]] | [_ [Hc _]]]].
  - rewrite Hget in H. injection H as <-. exact Hd.
  - rewrite Hget in Hc. exfalso. exact (renders_not_cannotShow toLowerCase answer Hrenders Hc).
  - rewrite Hget in Hc. exfalso. exact (renders_not_cannotShow toLowerCase answer Hrenders Hc).
Qed.

Lemma X22_init_shows_the_merge_witness :
  map App.heading
    (match App.grid
             (fst (App.init Demo.toLowerCase
                     (Sample.parsesTo (Demo.document [] [Some Sample.redirected]))
                     Collation.caseless false None
                     (Demo.api true 200 [Sample.repo "Zed" true]) Demo.blank))
     with App.Tiles tiles => tiles | App.Markup _ => [] end)
  = [JStr "proj1"; JStr "Zed"].
Proof.
  destruct (X22_init_shows_the_merge Demo.toLowerCase
              (Sample.parsesTo (Demo.document [] [Some Sample.redirected]))
              Collation.caseless false None (Demo.api true 200 [Sample.repo "Zed" true])
              Demo.blank
              ([GitHubAPI.manualProject (JStr "alice")
                  (Entry.mk (JStr "proj1") (JStr "proj1") JNull
                     (JStr "https://example.com/proj1") JNull JNull JNull);
                GitHubAPI.transformRepo (Sample.repo "Zed" true) (JStr "alice")],
               Profile.mk (JStr "alice") (JStr "https://avatars.example/alice")
                 (JStr "https://github.com/alice"))
              eq_refl)
    as [_ [_ [_ [tiles [Hgrid _]]]]].
  - repeat constructor; eexists; reflexivity.
  - rewrite Hgrid. vm_compute in Hgrid. injection Hgrid as <-. reflexivity.
Defined.
